(** * camera-stream: a shallow embedding of the two WebRTC camera demos

    The repository holds two near-duplicate programs, [camera_stream.py]
    (raw webcam relay) and [camera_stream_pose.py] (the same relay with
    pose and hand overlays).  Both are glue over OpenCV, PyAV, aiortc,
    aiohttp and MediaPipe.  The embedding keeps the program text as it is
    written: Python methods become computations in a state-and-exception
    monad, object attributes become optional record fields (an attribute
    that was never assigned is [None], so [hasattr] is [is_Some]), numpy
    arrays live in a store and are passed by reference, and everything the
    libraries decide (does the camera open, what does a read deliver, does
    a negotiation step raise, what does a detector find) is an input of
    the model over which the theorems quantify. *)

From Stdlib Require Import ZArith String.
From Stdlib Require QArith.
From stdpp Require Import base option list gmap.

#[local] Open Scope string_scope.
#[local] Open Scope list_scope.

(** ** Python exceptions *)

(** The classes that occur in the programs and in the library calls they
    make.  [CancelledError] and [OtherBaseException] derive from
    [BaseException] only, so [except Exception] does not catch them. *)
Inductive ExcClass : Type :=
  | RuntimeError
  | KeyError
  | TypeError
  | ValueError
  | AttributeError
  | JSONDecodeError
  | cv2_error
  | OtherException (name : string)
  | CancelledError
  | OtherBaseException (name : string).

(** [isinstance(e, Exception)] *)
Definition is_Exception (c : ExcClass) : bool :=
  match c with
  | CancelledError | OtherBaseException _ => false
  | _ => true
  end.

(** An exception object: its class and [str(e)]. *)
Record PyExc : Type := mkExc { exc_class : ExcClass; str : string }.

(** ** The state-and-exception monad

    A statement either returns a value or raises; in both cases the side
    effects it made so far persist. *)
Inductive Result (A : Type) : Type :=
  | Returned (a : A)
  | Raised (e : PyExc).
Arguments Returned {A} a.
Arguments Raised {A} e.

Definition M (St A : Type) : Type := St -> Result A * St.

Definition ret {St A} (a : A) : M St A := fun s => (Returned a, s).

Definition raise {St A} (e : PyExc) : M St A := fun s => (Raised e, s).

Definition bind {St A B} (m : M St A) (k : A -> M St B) : M St B :=
  fun s =>
    match m s with
    | (Returned a, s') => k a s'
    | (Raised e, s') => (Raised e, s')
    end.

Definition get {St} : M St St := fun s => (Returned s, s).

Definition modify {St} (f : St -> St) : M St unit := fun s => (Returned tt, f s).

(** [try: body  except Exception as e: handler e] *)
Definition try_except {St A} (body : M St A) (handler : PyExc -> M St A) : M St A :=
  fun s =>
    match body s with
    | (Returned a, s') => (Returned a, s')
    | (Raised e, s') =>
        if is_Exception (exc_class e) then handler e s' else (Raised e, s')
    end.

Declare Scope py_scope.
Delimit Scope py_scope with py.
Notation "x <- m ;; k" := (bind m (fun x => k))
  (at level 100, m at next level, right associativity) : py_scope.
Notation "m ;; k" := (bind m (fun _ => k))
  (at level 100, right associativity) : py_scope.
#[local] Open Scope py_scope.

(** [for x in xs: body x] *)
Fixpoint for_each {St A} (xs : list A) (body : A -> M St unit) : M St unit :=
  match xs with
  | [] => ret tt
  | x :: rest => body x ;; for_each rest body
  end.

(** Coroutines.  Calling an [async def] function runs none of its body: the
    call evaluates to a coroutine object, and only [await] runs it.  An
    expression statement evaluates its expression and drops the value. *)
Inductive Coroutine (St A : Type) : Type :=
  | Coro (body : M St A).
Arguments Coro {St A} body.

Definition await {St A} (c : Coroutine St A) : M St A :=
  match c with Coro body => body end.

Definition expr_stmt {St V} (value : V) : M St unit := ret tt.

(** [n] successive invocations of a method by its caller, each made
    whatever the one before did: their outcomes in order, and the state
    they leave. *)
Fixpoint invocations {St A} (n : nat) (m : M St A) (s : St) : list (Result A) * St :=
  match n with
  | 0 => ([], s)
  | S k =>
      let '(r, s1) := m s in
      let '(rs, s2) := invocations k m s1 in
      (r :: rs, s2)
  end.

(** The values delivered among the outcomes of a method that returns
    [None] when it has nothing to deliver. *)
Definition emitted {A} (rs : list (Result (option A))) : list A :=
  omap (fun r => match r with Returned (Some v) => Some v | _ => None end) rs.

(** ** OpenCV: arrays, colour conversion and the capture device *)
Module cv2.

(** One pixel of an 8-bit three-channel image, channels in storage order. *)
Definition pixel : Type := Z * Z * Z.

(** The contents of a [numpy.ndarray] image: rows of pixels. *)
Definition ndarray : Type := list (list pixel).

(** A reference to an array object in the store. *)
Definition ref : Type := nat.

Inductive CapProp : Type :=
  | CAP_PROP_FRAME_WIDTH
  | CAP_PROP_FRAME_HEIGHT
  | CAP_PROP_FPS.

(** A [cv2.VideoCapture] object.  A property that was never set keeps the
    driver's default, which the model does not know ([None]).
    [release_calls] counts the calls of [release()] on this handle. *)
Record VideoCapture : Type := {
  opened : bool;
  frame_width : option Z;
  frame_height : option Z;
  fps : option Z;
  release_calls : nat
}.

(** What the programs cannot decide themselves: whether the [k]-th attempt
    to open device [index] succeeds, and what the [k]-th read of an open
    capture delivers ([None]: the read fails, [Some a]: the frame [a]).
    [open_calls] and [read_calls] count the attempts made so far, and
    [arrays] is the store of array objects, an array's reference being its
    position. *)
Record World : Type := {
  open_result : Z -> nat -> bool;
  read_result : nat -> option ndarray;
  open_calls : nat;
  read_calls : nat;
  arrays : list ndarray
}.

Definition set_arrays (h : list ndarray) (w : World) : World :=
  {| open_result := open_result w; read_result := read_result w;
     open_calls := open_calls w; read_calls := read_calls w; arrays := h |}.

Definition count_open (w : World) : World :=
  {| open_result := open_result w; read_result := read_result w;
     open_calls := S (open_calls w); read_calls := read_calls w;
     arrays := arrays w |}.

Definition count_read (w : World) : World :=
  {| open_result := open_result w; read_result := read_result w;
     open_calls := open_calls w; read_calls := S (read_calls w);
     arrays := arrays w |}.

(** A new array object holding [a]. *)
Definition alloc (a : ndarray) : M World ref :=
  fun w => (Returned (length (arrays w)), set_arrays (arrays w ++ [a]) w).

(** The contents of an array object; [None] stands for Python's [None]
    passed where an array is expected. *)
Definition contents (r : option ref) : M World ndarray :=
  fun w =>
    match r with
    | Some i =>
        match arrays w !! i with
        | Some a => (Returned a, w)
        | None => (Raised (mkExc cv2_error "not an array"), w)
        end
    | None => (Raised (mkExc cv2_error "not an array"), w)
    end.

(** In-place update of an array object. *)
Definition store (r : ref) (a : ndarray) : M World unit :=
  modify (fun w => set_arrays (<[r := a]> (arrays w)) w).

(** [cv2.VideoCapture(index)] *)
Definition new_VideoCapture (index : Z) : M World VideoCapture :=
  fun w =>
    (Returned {| opened := open_result w index (open_calls w);
                 frame_width := None; frame_height := None; fps := None;
                 release_calls := 0 |},
     count_open w).

(** [cap.set(prop, value)]: the request reaches the driver only when the
    capture is open; the result says whether it did. *)
Definition set (c : VideoCapture) (prop : CapProp) (value : Z)
  : VideoCapture * bool :=
  if opened c then
    (match prop with
     | CAP_PROP_FRAME_WIDTH =>
         {| opened := opened c; frame_width := Some value;
            frame_height := frame_height c; fps := fps c;
            release_calls := release_calls c |}
     | CAP_PROP_FRAME_HEIGHT =>
         {| opened := opened c; frame_width := frame_width c;
            frame_height := Some value; fps := fps c;
            release_calls := release_calls c |}
     | CAP_PROP_FPS =>
         {| opened := opened c; frame_width := frame_width c;
            frame_height := frame_height c; fps := Some value;
            release_calls := release_calls c |}
     end, true)
  else (c, false).

(** [cap.isOpened()] *)
Definition isOpened (c : VideoCapture) : bool := opened c.

(** [cap.read()]: the pair [(ret, frame)].  A capture that is not open
    delivers [(False, None)] without touching the device. *)
Definition read (c : VideoCapture) : M World (bool * option ref) :=
  if opened c then
    fun w =>
      match read_result w (read_calls w) with
      | Some a => (frame <- alloc a ;; ret (true, Some frame)) (count_read w)
      | None => (Returned (false, None), count_read w)
      end
  else ret (false, None).

(** [cap.release()] *)
Definition release (c : VideoCapture) : VideoCapture :=
  {| opened := false; frame_width := frame_width c;
     frame_height := frame_height c; fps := fps c;
     release_calls := S (release_calls c) |}.

(** [COLOR_BGR2RGB] on one array: the first and third channel swap. *)
Definition bgr2rgb (a : ndarray) : ndarray :=
  map (map (fun px : pixel => let '(c0, c1, c2) := px in (c2, c1, c0))) a.

Inductive ColorCode : Type := COLOR_BGR2RGB.

(** [cv2.cvtColor(src, code)] returns a new array and leaves [src] alone. *)
Definition cvtColor (src : option ref) (code : ColorCode) : M World ref :=
  a <- contents src ;;
  match code with
  | COLOR_BGR2RGB => alloc (bgr2rgb a)
  end.

(** The frames the next [n] reads of an open capture deliver, the failed
    reads left out. *)
Definition frames_read (w : World) (n : nat) : list ndarray :=
  omap (read_result w) (seq (read_calls w) n).

(** The capture object of a device that opened, after the requests
    for 640x480 at 30 frames per second. *)
Definition configured : VideoCapture :=
  {| opened := true; frame_width := Some 640%Z; frame_height := Some 480%Z;
     fps := Some 30%Z; release_calls := 0 |}.

(** The capture object of a device that did not open. *)
Definition unopened : VideoCapture :=
  {| opened := false; frame_width := None; frame_height := None;
     fps := None; release_calls := 0 |}.

End cv2.

(** A state that holds the world; [in_world] runs a library call in it. *)
Class HasWorld (St : Type) : Type := {
  the_world : St -> cv2.World;
  with_world : cv2.World -> St -> St
}.

Definition in_world {St} `{HasWorld St} {A} (m : M cv2.World A) : M St A :=
  fun s => let '(r, w) := m (the_world s) in (r, with_world w s).

#[global] Instance World_HasWorld : HasWorld cv2.World :=
  {| the_world := fun w => w; with_world := fun w _ => w |}.

(** ** fractions and PyAV *)

(** [Fraction(n, d)] for a positive [d]: the quotient in lowest terms. *)
Definition Fraction (n d : Z) : QArith_base.Q :=
  Qreduction.Qred (QArith_base.Qmake n (Z.to_pos d)).

Module av.

(** An [av.VideoFrame]: its own copy of the pixels, the pixel format, and
    the presentation timestamp and time base, unset at creation. *)
Record VideoFrame : Type := {
  planes : cv2.ndarray;
  format : string;
  pts : option Z;
  time_base : option QArith_base.Q
}.

(** [VideoFrame.from_ndarray(array, format=...)] *)
Definition from_ndarray (array : cv2.ref) (fmt : string) : M cv2.World VideoFrame :=
  a <- cv2.contents (Some array) ;;
  ret {| planes := a; format := fmt; pts := None; time_base := None |}.

Definition set_pts (f : VideoFrame) (v : Z) : VideoFrame :=
  {| planes := planes f; format := format f; pts := Some v;
     time_base := time_base f |}.

Definition set_time_base (f : VideoFrame) (v : QArith_base.Q) : VideoFrame :=
  {| planes := planes f; format := format f; pts := pts f;
     time_base := Some v |}.

End av.

(** ** json and aiohttp *)

(** A decoded JSON value; an object is given by its members. *)
#[local] Unset Elimination Schemes.
Inductive json : Type :=
  | JNull
  | JBool (b : bool)
  | JInt (n : Z)
  | JFloat (q : QArith_base.Q)
  | JString (s : string)
  | JArray (items : list json)
  | JObject (members : list (string * json)).
#[local] Set Elimination Schemes.

Fixpoint dict_get (members : list (string * json)) (key : string) : option json :=
  match members with
  | [] => None
  | (k, v) :: rest => if String.eqb k key then Some v else dict_get rest key
  end.

(** [value[key]] for a string [key] *)
Definition getitem (value : json) (key : string) : Result json :=
  match value with
  | JObject members =>
      match dict_get members key with
      | Some v => Returned v
      | None => Raised (mkExc KeyError ("'" ++ key ++ "'")%string)
      end
  | JArray _ => Raised (mkExc TypeError "list indices must be integers or slices, not str")
  | JString _ => Raised (mkExc TypeError "string indices must be integers, not 'str'")
  | JNull => Raised (mkExc TypeError "'NoneType' object is not subscriptable")
  | JBool _ => Raised (mkExc TypeError "'bool' object is not subscriptable")
  | JInt _ => Raised (mkExc TypeError "'int' object is not subscriptable")
  | JFloat _ => Raised (mkExc TypeError "'float' object is not subscriptable")
  end.

Definition lift_result {St A} (r : Result A) : M St A := fun s => (r, s).

Module web.

(** A request, as far as the handlers read it: what [json.loads] makes of
    the body ([None]: the body is not JSON). *)
Record Request : Type := { body : option json }.

(** [await request.json()] *)
Definition request_json (request : Request) : Result json :=
  match body request with
  | Some v => Returned v
  | None => Raised (mkExc JSONDecodeError "Expecting value: line 1 column 1 (char 0)")
  end.

(** A response body: a text, the text [json.dumps] gives for a value, the
    index page, or the error page aiohttp writes on its own. *)
Inductive Payload : Type :=
  | Text (s : string)
  | Dumps (v : json)
  | IndexPage
  | ErrorPage.

Record Response : Type := {
  status : Z;
  content_type : string;
  payload : Payload
}.

(** aiohttp's request loop around a handler: an [Exception] that escapes
    the handler is answered with status 500 and the server goes on. *)
Definition handle_request {St} (handler : M St Response) : M St Response :=
  try_except handler
    (fun _ => ret {| status := 500; content_type := "text/plain"; payload := ErrorPage |}).

End web.

(** ** aiortc *)
Module aiortc.

Record RTCSessionDescription : Type := { sdp : json; type : string }.

(** [RTCSessionDescription(sdp=..., type=...)]: a dataclass whose
    [__post_init__] accepts the four description types only. *)
Definition new_RTCSessionDescription (sdp_ type_ : json) : Result RTCSessionDescription :=
  match type_ with
  | JString t =>
      if bool_decide (t ∈ ["offer"; "pranswer"; "answer"; "rollback"]) then
        Returned {| sdp := sdp_; type := t |}
      else Raised (mkExc ValueError "'type' must be in ['offer', 'pranswer', 'answer', 'rollback']")
  | JArray _ => Raised (mkExc TypeError "unhashable type: 'list'")
  | JObject _ => Raised (mkExc TypeError "unhashable type: 'dict'")
  | _ => Raised (mkExc ValueError "'type' must be in ['offer', 'pranswer', 'answer', 'rollback']")
  end.

Inductive ConnectionState : Type :=
  | new | connecting | connected | disconnected | failed | closed.

(** An [RTCPeerConnection] object: its connection state, the tracks added
    to it and the events a handler was registered for with [pc.on]. *)
Record RTCPeerConnection (Track : Type) : Type := {
  connectionState : ConnectionState;
  senders : list Track;
  listeners : list string
}.
Arguments connectionState {Track} _.
Arguments senders {Track} _.
Arguments listeners {Track} _.

(** What the negotiation of one request does, as far as the handler sees
    it: whether each step raises, the answer created, and the local
    description the connection holds afterwards. *)
Record Negotiation : Type := {
  addTrack_raises : option PyExc;
  setRemoteDescription_raises : option PyExc;
  createAnswer_result : Result RTCSessionDescription;
  setLocalDescription_raises : option PyExc;
  localDescription : RTCSessionDescription
}.

Definition may_raise {St} (o : option PyExc) : M St unit :=
  match o with
  | Some e => raise e
  | None => ret tt
  end.

(** The exception of the first negotiation step that raises, in the order
    in which [offer] takes the steps. *)
Definition first_failure (rtc : Negotiation) : option PyExc :=
  match addTrack_raises rtc with
  | Some e => Some e
  | None =>
      match setRemoteDescription_raises rtc with
      | Some e => Some e
      | None =>
          match createAnswer_result rtc with
          | Raised e => Some e
          | Returned _ => setLocalDescription_raises rtc
          end
      end
  end.

End aiortc.

(** ** The signaling code, shared by the two programs

    [camera_stream_pose.py] repeats [pcs], [offer] and the main block of
    [camera_stream.py] unchanged; they differ in the track class only, so
    the shared text is embedded once, over the class. *)
Module signaling.
Section WithTrack.

Context {Track : Type}.
(** The class call [VideoTransformTrack()]. *)
Variable new_VideoTransformTrack : M cv2.World Track.

(** The process state: the module-level set [pcs], the peer connection
    objects created so far (a connection's identity is its position) and
    the world. *)
Record Server : Type := {
  pcs : gset nat;
  conns : list (aiortc.RTCPeerConnection Track);
  world : cv2.World
}.

#[global] Instance Server_HasWorld : HasWorld Server :=
  {| the_world := world;
     with_world := fun w s => {| pcs := pcs s; conns := conns s; world := w |} |}.

Definition set_pcs (f : gset nat -> gset nat) : M Server unit :=
  modify (fun s => {| pcs := f (pcs s); conns := conns s; world := world s |}).

Definition update_conn (pc : nat)
    (f : aiortc.RTCPeerConnection Track -> aiortc.RTCPeerConnection Track)
  : M Server unit :=
  modify (fun s =>
    {| pcs := pcs s;
       conns := match conns s !! pc with
                | Some c => <[pc := f c]> (conns s)
                | None => conns s
                end;
       world := world s |}).

(** [RTCPeerConnection()] *)
Definition new_RTCPeerConnection : M Server nat :=
  fun s =>
    (Returned (length (conns s)),
     {| pcs := pcs s;
        conns := conns s ++ [ {| aiortc.connectionState := aiortc.new;
                                 aiortc.senders := [];
                                 aiortc.listeners := [] |} ];
        world := world s |}).

(** [pc.on(event)(handler)] *)
Definition pc_on (pc : nat) (event : string) : M Server unit :=
  update_conn pc (fun c =>
    {| aiortc.connectionState := aiortc.connectionState c;
       aiortc.senders := aiortc.senders c;
       aiortc.listeners := event :: aiortc.listeners c |}).

(** [pc.addTrack(track)] *)
Definition addTrack (rtc : aiortc.Negotiation) (pc : nat) (track : Track) : M Server unit :=
  aiortc.may_raise (aiortc.addTrack_raises rtc) ;;
  update_conn pc (fun c =>
    {| aiortc.connectionState := aiortc.connectionState c;
       aiortc.senders := aiortc.senders c ++ [track];
       aiortc.listeners := aiortc.listeners c |}).

Definition set_state (pc : nat) (st : aiortc.ConnectionState) : M Server unit :=
  update_conn pc (fun c =>
    {| aiortc.connectionState := st;
       aiortc.senders := aiortc.senders c;
       aiortc.listeners := aiortc.listeners c |}).

(** [pc.remove_all_listeners()] *)
Definition remove_all_listeners (pc : nat) : M Server unit :=
  update_conn pc (fun c =>
    {| aiortc.connectionState := aiortc.connectionState c;
       aiortc.senders := aiortc.senders c;
       aiortc.listeners := [] |}).

(** [pc.close()].  [RTCPeerConnection.close] is an [async def] (the
    handler below awaits it), so the call gives a coroutine; run, it
    shuts the connection down and, no event being due any more, ends by
    removing the connection's listeners.  The state change it announces
    before that reaches [on_connectionstatechange] with the state
    [closed], where the handler does nothing. *)
Definition pc_close (pc : nat) : Coroutine Server unit :=
  Coro (set_state pc aiortc.closed ;; remove_all_listeners pc).

(** The closure [on_connectionstatechange] that [offer] registers on [pc]. *)
Definition on_connectionstatechange (pc : nat) : M Server unit :=
  s <- get ;;
  match aiortc.connectionState <$> conns s !! pc with
  | Some aiortc.failed =>
      await (pc_close pc) ;;
      set_pcs (fun live => live ∖ {[ pc ]})
  | _ => ret tt
  end.

(** [offer(request)] *)
Definition offer (rtc : aiortc.Negotiation) (request : web.Request) : M Server web.Response :=
  params <- lift_result (web.request_json request) ;;
  sdp_ <- lift_result (getitem params "sdp") ;;
  type_ <- lift_result (getitem params "type") ;;
  offer <- lift_result (aiortc.new_RTCSessionDescription sdp_ type_) ;;
  pc <- new_RTCPeerConnection ;;
  set_pcs (fun live => {[ pc ]} ∪ live) ;;
  pc_on pc "connectionstatechange" ;;
  try_except
    (video <- in_world new_VideoTransformTrack ;;
     addTrack rtc pc video ;;
     aiortc.may_raise (aiortc.setRemoteDescription_raises rtc) ;;
     answer <- lift_result (aiortc.createAnswer_result rtc) ;;
     aiortc.may_raise (aiortc.setLocalDescription_raises rtc) ;;
     ret {| web.status := 200;
            web.content_type := "application/json";
            web.payload :=
              web.Dumps (JObject
                [("sdp", aiortc.sdp (aiortc.localDescription rtc));
                 ("type", JString (aiortc.type (aiortc.localDescription rtc)))]) |})
    (fun e =>
       ret {| web.status := 500; web.content_type := "text/plain";
              web.payload := web.Text (str e) |}).

(** The process state in which [offer] enters its [try] block, having
    started in [s]: the new connection is the last one created, it is in
    [pcs], and the handler is registered on it. *)
Definition entered (s : Server) : Server :=
  {| pcs := {[ length (conns s) ]} ∪ pcs s;
     conns := conns s ++ [ {| aiortc.connectionState := aiortc.new;
                              aiortc.senders := [];
                              aiortc.listeners := ["connectionstatechange"] |} ];
     world := world s |}.

(** What [offer] does with an exception raised in its [try] block: an
    [Exception] becomes the 500 answer with its text, anything else goes
    on to the caller. *)
Definition answer_to (e : PyExc) : Result web.Response :=
  if is_Exception (exc_class e) then
    Returned {| web.status := 500; web.content_type := "text/plain";
                web.payload := web.Text (str e) |}
  else Raised e.

(** The connection object [offer] has created, with the tracks added. *)
Definition offered (tracks : list Track) : aiortc.RTCPeerConnection Track :=
  {| aiortc.connectionState := aiortc.new;
     aiortc.senders := tracks;
     aiortc.listeners := ["connectionstatechange"] |}.

(** [index(request)] *)
Definition index : M Server web.Response :=
  ret {| web.status := 200; web.content_type := "text/html";
         web.payload := web.IndexPage |}.

(** What the event loop delivers while [web.run_app] runs: a request for
    one of the two routes, a change of a connection's state announced by
    aiortc, or the interrupt that ends the run. *)
Inductive Event : Type :=
  | PostOffer (rtc : aiortc.Negotiation) (request : web.Request)
  | GetIndex
  | StateChange (pc : nat) (st : aiortc.ConnectionState)
  | Interrupt.

Definition deliver (ev : Event) : M Server (list web.Response) :=
  match ev with
  | PostOffer rtc request =>
      r <- web.handle_request (offer rtc request) ;; ret [r]
  | GetIndex =>
      r <- web.handle_request index ;; ret [r]
  | StateChange pc st =>
      set_state pc st ;;
      s <- get ;;
      match conns s !! pc with
      | Some c =>
          if bool_decide ("connectionstatechange" ∈ aiortc.listeners c)
          then on_connectionstatechange pc
          else ret tt
      | None => ret tt
      end ;;
      ret []
  | Interrupt => raise (mkExc (OtherBaseException "KeyboardInterrupt") "")
  end.

(** [web.run_app(app, ...)]: serve until the events end or one raises. *)
Fixpoint run_app (events : list Event) : M Server (list web.Response) :=
  match events with
  | [] => ret []
  | ev :: rest =>
      r <- deliver ev ;;
      rs <- run_app rest ;;
      ret (r ++ rs)
  end.

(** The [finally] block of the main program: [for pc in pcs: pc.close()]. *)
Definition main_finally : M Server unit :=
  s <- get ;;
  for_each (elements (pcs s)) (fun pc => expr_stmt (pc_close pc)).

(** The main program: [try: run_app  except KeyboardInterrupt: print
    finally: ...]. *)
Definition main (events : list Event) : M Server unit :=
  fun s =>
    let '(r, s1) := run_app events s in
    let r1 :=
      match r with
      | Returned _ => Returned tt
      | Raised e =>
          match exc_class e with
          | OtherBaseException "KeyboardInterrupt" => Returned tt
          | _ => Raised e
          end
      end in
    match main_finally s1 with
    | (Returned _, s2) => (r1, s2)
    | (Raised e, s2) => (Raised e, s2)
    end.

End WithTrack.
Arguments Server Track : clear implicits.
Arguments entered {Track} s.
Arguments answer_to e : assert.
End signaling.

(** ** camera_stream.py: the track *)
Module camera_stream.

(** A [VideoTransformTrack] object: the attributes [__init__] assigns. *)
Record VideoTransformTrack : Type := {
  cap : option cv2.VideoCapture;
  time_base : option QArith_base.Q;
  pts : option Z
}.

Definition kind : string := "video".

(** The object as [object.__new__] leaves it: no attribute assigned. *)
Definition blank : VideoTransformTrack :=
  {| cap := None; time_base := None; pts := None |}.

(** An object with every attribute assigned. *)
Definition assigned (c : cv2.VideoCapture) (tb : QArith_base.Q) (p : Z)
  : VideoTransformTrack :=
  {| cap := Some c; time_base := Some tb; pts := Some p |}.

(** A method runs on its [self] and the world. *)
Record Obj : Type := { self : VideoTransformTrack; world : cv2.World }.

#[global] Instance Obj_HasWorld : HasWorld Obj :=
  {| the_world := world;
     with_world := fun w o => {| self := self o; world := w |} |}.

(** [self.<name>], raising [AttributeError] for a missing attribute. *)
Definition getattr {A} (name : string) (field : VideoTransformTrack -> option A)
  : M Obj A :=
  fun o =>
    match field (self o) with
    | Some v => (Returned v, o)
    | None =>
        (Raised (mkExc AttributeError
           ("'VideoTransformTrack' object has no attribute '" ++ name ++ "'")%string), o)
    end.

Definition update_self (f : VideoTransformTrack -> VideoTransformTrack) : M Obj unit :=
  modify (fun o => {| self := f (self o); world := world o |}).

Definition setattr_cap (c : cv2.VideoCapture) : M Obj unit :=
  update_self (fun t => {| cap := Some c; time_base := time_base t; pts := pts t |}).

Definition setattr_time_base (q : QArith_base.Q) : M Obj unit :=
  update_self (fun t => {| cap := cap t; time_base := Some q; pts := pts t |}).

Definition setattr_pts (p : Z) : M Obj unit :=
  update_self (fun t => {| cap := cap t; time_base := time_base t; pts := Some p |}).

(** [self.cap.set(prop, value)]: the capture object is private to the
    track, so the mutated object is written back into the attribute. *)
Definition cap_set (prop : cv2.CapProp) (value : Z) : M Obj bool :=
  c <- getattr "cap" cap ;;
  let '(c', ok) := cv2.set c prop value in
  setattr_cap c' ;;
  ret ok.

(** [VideoTransformTrack.__init__] *)
Definition __init__ : M Obj unit :=
  c <- in_world (cv2.new_VideoCapture 0) ;;
  setattr_cap c ;;
  cap_set cv2.CAP_PROP_FRAME_WIDTH 640 ;;
  cap_set cv2.CAP_PROP_FRAME_HEIGHT 480 ;;
  cap_set cv2.CAP_PROP_FPS 30 ;;
  c <- getattr "cap" cap ;;
  if negb (cv2.isOpened c) then
    raise (mkExc RuntimeError "No se pudo abrir la cámara")
  else
    setattr_time_base (Fraction 1 30) ;;
    setattr_pts 0.

(** [VideoTransformTrack.recv] *)
Definition recv : M Obj (option av.VideoFrame) :=
  c <- getattr "cap" cap ;;
  rd <- in_world (cv2.read c) ;;
  let '(ret_, frame) := rd in
  if negb ret_ then
    ret None
  else
    frame <- in_world (cv2.cvtColor frame cv2.COLOR_BGR2RGB) ;;
    video_frame <- in_world (av.from_ndarray frame "rgb24") ;;
    p <- getattr "pts" pts ;;
    let video_frame := av.set_pts video_frame p in
    tb <- getattr "time_base" time_base ;;
    let video_frame := av.set_time_base video_frame tb in
    p <- getattr "pts" pts ;;
    setattr_pts (p + 1) ;;
    ret (Some video_frame).

(** [VideoTransformTrack.__del__].  The only assignment to [self.cap]
    stores a capture object, so [self.cap is not None] holds whenever
    the attribute exists. *)
Definition __del__ : M Obj unit :=
  o <- get ;;
  match cap (self o) with
  | Some c => setattr_cap (cv2.release c)
  | None => ret tt
  end.

(** The class call [VideoTransformTrack()]: a blank object, initialised;
    the object is the result only when [__init__] returns. *)
Definition new_VideoTransformTrack : M cv2.World VideoTransformTrack :=
  fun w =>
    match __init__ {| self := blank; world := w |} with
    | (Returned _, o) => (Returned (self o), world o)
    | (Raised e, o) => (Raised e, world o)
    end.

(** The signaling code of [camera_stream.py], over this track class. *)
Definition Server : Type := signaling.Server VideoTransformTrack.

Definition offer : aiortc.Negotiation -> web.Request -> M Server web.Response :=
  signaling.offer new_VideoTransformTrack.

Definition main : list signaling.Event -> M Server unit :=
  signaling.main new_VideoTransformTrack.

End camera_stream.

(** ** MediaPipe *)
Module mediapipe.

(** A landmark list: normalised coordinates of the detected keypoints. *)
Definition NormalizedLandmarkList : Type :=
  list (QArith_base.Q * QArith_base.Q * QArith_base.Q).

Inductive Connections : Type := POSE_CONNECTIONS | HAND_CONNECTIONS.

Record DrawingSpec : Type := {
  color : Z * Z * Z;
  thickness : Z;
  circle_radius : Z
}.

(** [DrawingSpec(color=..., thickness=...)] *)
Definition new_DrawingSpec (color_ : Z * Z * Z) (thickness_ : Z) : DrawingSpec :=
  {| color := color_; thickness := thickness_; circle_radius := 2 |}.

(** The modules the track keeps a reference to. *)
Inductive Module_ : Type := drawing_utils | solutions_pose | solutions_hands.

(** A solution object ([Pose], [Hands]): the detector's internal state
    (it tracks across frames), the number of [close()] calls made on it
    and the images [process()] was called with, latest first. *)
Record Solution (G : Type) : Type := {
  graph : G;
  close_calls : nat;
  processed : list cv2.ndarray
}.
Arguments graph {G} _.
Arguments close_calls {G} _.
Arguments processed {G} _.

(** A solution object as its constructor leaves it. *)
Definition fresh_solution {G} (g : G) : Solution G :=
  {| graph := g; close_calls := 0; processed := [] |}.

(** The object after [process(image)] moved the detector to [g]. *)
Definition after_process {G} (s : Solution G) (image : cv2.ndarray) (g : G)
  : Solution G :=
  {| graph := g; close_calls := close_calls s;
     processed := image :: processed s |}.

(** [solution.close()].  The library raises [ValueError] when [close()]
    is called on a solution already closed; the model only counts the
    call, so it is faithful for the first [close()] of an object and not
    for a later one. *)
Definition close {G} (s : Solution G) : Solution G :=
  {| graph := graph s; close_calls := S (close_calls s);
     processed := processed s |}.

(** What the library decides: whether the constructors raise, what each
    detector finds in an image given its state ([None]: nothing found),
    and what [draw_landmarks] paints. *)
Record Library (PoseGraph HandsGraph : Type) : Type := {
  new_Pose : QArith_base.Q -> QArith_base.Q -> Result PoseGraph;
  new_Hands : QArith_base.Q -> QArith_base.Q -> Result HandsGraph;
  Pose_process :
    PoseGraph -> cv2.ndarray -> option NormalizedLandmarkList * PoseGraph;
  Hands_process :
    HandsGraph -> cv2.ndarray -> option (list NormalizedLandmarkList) * HandsGraph;
  draw :
    cv2.ndarray -> NormalizedLandmarkList -> Connections ->
    DrawingSpec -> DrawingSpec -> cv2.ndarray
}.
Arguments new_Pose {PoseGraph HandsGraph} _ _ _.
Arguments new_Hands {PoseGraph HandsGraph} _ _ _.
Arguments Pose_process {PoseGraph HandsGraph} _ _ _.
Arguments Hands_process {PoseGraph HandsGraph} _ _ _.
Arguments draw {PoseGraph HandsGraph} _ _ _ _ _ _.

End mediapipe.

(** ** camera_stream_pose.py *)
Module camera_stream_pose.
Section WithLibrary.

Context {PoseGraph HandsGraph : Type}.
Variable mp : mediapipe.Library PoseGraph HandsGraph.

Record VideoTransformTrack : Type := {
  cap : option cv2.VideoCapture;
  mp_drawing : option mediapipe.Module_;
  mp_pose : option mediapipe.Module_;
  mp_hands : option mediapipe.Module_;
  pose : option (mediapipe.Solution PoseGraph);
  hands : option (mediapipe.Solution HandsGraph);
  time_base : option QArith_base.Q;
  pts : option Z
}.

Definition kind : string := "video".

Definition blank : VideoTransformTrack :=
  {| cap := None; mp_drawing := None; mp_pose := None; mp_hands := None;
     pose := None; hands := None; time_base := None; pts := None |}.

(** An object with every attribute assigned, the module references as
    [__init__] assigns them. *)
Definition assigned (c : cv2.VideoCapture)
    (p_ : mediapipe.Solution PoseGraph) (h_ : mediapipe.Solution HandsGraph)
    (tb : QArith_base.Q) (p : Z)
  : VideoTransformTrack :=
  {| cap := Some c;
     mp_drawing := Some mediapipe.drawing_utils;
     mp_pose := Some mediapipe.solutions_pose;
     mp_hands := Some mediapipe.solutions_hands;
     pose := Some p_; hands := Some h_;
     time_base := Some tb; pts := Some p |}.

Record Obj : Type := { self : VideoTransformTrack; world : cv2.World }.

#[global] Instance Obj_HasWorld : HasWorld Obj :=
  {| the_world := world;
     with_world := fun w o => {| self := self o; world := w |} |}.

Definition getattr {A} (name : string) (field : VideoTransformTrack -> option A)
  : M Obj A :=
  fun o =>
    match field (self o) with
    | Some v => (Returned v, o)
    | None =>
        (Raised (mkExc AttributeError
           ("'VideoTransformTrack' object has no attribute '" ++ name ++ "'")%string), o)
    end.

Definition update_self (f : VideoTransformTrack -> VideoTransformTrack) : M Obj unit :=
  modify (fun o => {| self := f (self o); world := world o |}).

Definition setattr_cap (c : cv2.VideoCapture) : M Obj unit :=
  update_self (fun t =>
    {| cap := Some c; mp_drawing := mp_drawing t; mp_pose := mp_pose t;
       mp_hands := mp_hands t; pose := pose t; hands := hands t;
       time_base := time_base t; pts := pts t |}).

Definition setattr_mp_drawing (m : mediapipe.Module_) : M Obj unit :=
  update_self (fun t =>
    {| cap := cap t; mp_drawing := Some m; mp_pose := mp_pose t;
       mp_hands := mp_hands t; pose := pose t; hands := hands t;
       time_base := time_base t; pts := pts t |}).

Definition setattr_mp_pose (m : mediapipe.Module_) : M Obj unit :=
  update_self (fun t =>
    {| cap := cap t; mp_drawing := mp_drawing t; mp_pose := Some m;
       mp_hands := mp_hands t; pose := pose t; hands := hands t;
       time_base := time_base t; pts := pts t |}).

Definition setattr_mp_hands (m : mediapipe.Module_) : M Obj unit :=
  update_self (fun t =>
    {| cap := cap t; mp_drawing := mp_drawing t; mp_pose := mp_pose t;
       mp_hands := Some m; pose := pose t; hands := hands t;
       time_base := time_base t; pts := pts t |}).

Definition setattr_pose (p : mediapipe.Solution PoseGraph) : M Obj unit :=
  update_self (fun t =>
    {| cap := cap t; mp_drawing := mp_drawing t; mp_pose := mp_pose t;
       mp_hands := mp_hands t; pose := Some p; hands := hands t;
       time_base := time_base t; pts := pts t |}).

Definition setattr_hands (h : mediapipe.Solution HandsGraph) : M Obj unit :=
  update_self (fun t =>
    {| cap := cap t; mp_drawing := mp_drawing t; mp_pose := mp_pose t;
       mp_hands := mp_hands t; pose := pose t; hands := Some h;
       time_base := time_base t; pts := pts t |}).

Definition setattr_time_base (q : QArith_base.Q) : M Obj unit :=
  update_self (fun t =>
    {| cap := cap t; mp_drawing := mp_drawing t; mp_pose := mp_pose t;
       mp_hands := mp_hands t; pose := pose t; hands := hands t;
       time_base := Some q; pts := pts t |}).

Definition setattr_pts (p : Z) : M Obj unit :=
  update_self (fun t =>
    {| cap := cap t; mp_drawing := mp_drawing t; mp_pose := mp_pose t;
       mp_hands := mp_hands t; pose := pose t; hands := hands t;
       time_base := time_base t; pts := Some p |}).

Definition cap_set (prop : cv2.CapProp) (value : Z) : M Obj bool :=
  c <- getattr "cap" cap ;;
  let '(c', ok) := cv2.set c prop value in
  setattr_cap c' ;;
  ret ok.

(** [VideoTransformTrack.__init__]; the confidences are 0.5. *)
Definition __init__ : M Obj unit :=
  c <- in_world (cv2.new_VideoCapture 0) ;;
  setattr_cap c ;;
  cap_set cv2.CAP_PROP_FRAME_WIDTH 640 ;;
  cap_set cv2.CAP_PROP_FRAME_HEIGHT 480 ;;
  cap_set cv2.CAP_PROP_FPS 30 ;;
  c <- getattr "cap" cap ;;
  if negb (cv2.isOpened c) then
    raise (mkExc RuntimeError "No se pudo abrir la cámara")
  else
    setattr_mp_drawing mediapipe.drawing_utils ;;
    setattr_mp_pose mediapipe.solutions_pose ;;
    setattr_mp_hands mediapipe.solutions_hands ;;
    _ <- getattr "mp_pose" mp_pose ;;
    g <- lift_result
           (mediapipe.new_Pose mp (QArith_base.Qmake 1 2) (QArith_base.Qmake 1 2)) ;;
    setattr_pose (mediapipe.fresh_solution g) ;;
    _ <- getattr "mp_hands" mp_hands ;;
    g <- lift_result
           (mediapipe.new_Hands mp (QArith_base.Qmake 1 2) (QArith_base.Qmake 1 2)) ;;
    setattr_hands (mediapipe.fresh_solution g) ;;
    setattr_time_base (Fraction 1 30) ;;
    setattr_pts 0.

(** [self.pose.process(image)]: the detector reads the array as it is at
    the call and moves to its next state. *)
Definition pose_process (image : cv2.ref)
  : M Obj (option mediapipe.NormalizedLandmarkList) :=
  p <- getattr "pose" pose ;;
  a <- in_world (cv2.contents (Some image)) ;;
  let '(found, g) := mediapipe.Pose_process mp (mediapipe.graph p) a in
  setattr_pose (mediapipe.after_process p a g) ;;
  ret found.

(** [self.hands.process(image)] *)
Definition hands_process (image : cv2.ref)
  : M Obj (option (list mediapipe.NormalizedLandmarkList)) :=
  h <- getattr "hands" hands ;;
  a <- in_world (cv2.contents (Some image)) ;;
  let '(found, g) := mediapipe.Hands_process mp (mediapipe.graph h) a in
  setattr_hands (mediapipe.after_process h a g) ;;
  ret found.

(** [self.mp_drawing.DrawingSpec(color=..., thickness=...)] *)
Definition DrawingSpec (color : Z * Z * Z) (thickness : Z)
  : M Obj mediapipe.DrawingSpec :=
  _ <- getattr "mp_drawing" mp_drawing ;;
  ret (mediapipe.new_DrawingSpec color thickness).

(** The call of [draw_landmarks] itself, its arguments evaluated: the
    array [image] is painted in place. *)
Definition draw_landmarks (image : option cv2.ref)
    (landmarks : mediapipe.NormalizedLandmarkList)
    (connections : mediapipe.Connections)
    (landmark_drawing_spec connection_drawing_spec : mediapipe.DrawingSpec)
  : M Obj unit :=
  a <- in_world (cv2.contents image) ;;
  match image with
  | Some r =>
      in_world (cv2.store r
        (mediapipe.draw mp a landmarks connections
           landmark_drawing_spec connection_drawing_spec))
  | None => ret tt
  end.

(** [VideoTransformTrack.process_frame].  A landmark list is a message
    object, true whenever it is not [None]; a list of hands is true when
    it is not [None] and not empty. *)
Definition process_frame (frame : option cv2.ref) : M Obj (option cv2.ref) :=
  rgb_frame <- in_world (cv2.cvtColor frame cv2.COLOR_BGR2RGB) ;;
  pose_landmarks <- pose_process rgb_frame ;;
  match pose_landmarks with
  | Some landmarks =>
      _ <- getattr "mp_drawing" mp_drawing ;;
      _ <- getattr "mp_pose" mp_pose ;;
      landmark_drawing_spec <- DrawingSpec (0, 255, 0)%Z 2 ;;
      connection_drawing_spec <- DrawingSpec (255, 0, 0)%Z 2 ;;
      draw_landmarks frame landmarks mediapipe.POSE_CONNECTIONS
        landmark_drawing_spec connection_drawing_spec
  | None => ret tt
  end ;;
  multi_hand_landmarks <- hands_process rgb_frame ;;
  match multi_hand_landmarks with
  | Some (hand :: others) =>
      for_each (hand :: others) (fun hand_landmarks =>
        _ <- getattr "mp_drawing" mp_drawing ;;
        _ <- getattr "mp_hands" mp_hands ;;
        landmark_drawing_spec <- DrawingSpec (0, 0, 255)%Z 2 ;;
        connection_drawing_spec <- DrawingSpec (255, 255, 0)%Z 2 ;;
        draw_landmarks frame hand_landmarks mediapipe.HAND_CONNECTIONS
          landmark_drawing_spec connection_drawing_spec)
  | _ => ret tt
  end ;;
  ret frame.

(** What [draw_landmarks] paints on [a] for a pose, in the styles
    [process_frame] passes: joints (0, 255, 0), connections (255, 0, 0),
    thickness 2. *)
Definition pose_overlay (a : cv2.ndarray)
    (landmarks : mediapipe.NormalizedLandmarkList) : cv2.ndarray :=
  mediapipe.draw mp a landmarks mediapipe.POSE_CONNECTIONS
    (mediapipe.new_DrawingSpec (0, 255, 0)%Z 2)
    (mediapipe.new_DrawingSpec (255, 0, 0)%Z 2).

(** What it paints for one hand: joints (0, 0, 255), connections
    (255, 255, 0), thickness 2. *)
Definition hand_overlay (a : cv2.ndarray)
    (hand_landmarks : mediapipe.NormalizedLandmarkList) : cv2.ndarray :=
  mediapipe.draw mp a hand_landmarks mediapipe.HAND_CONNECTIONS
    (mediapipe.new_DrawingSpec (0, 0, 255)%Z 2)
    (mediapipe.new_DrawingSpec (255, 255, 0)%Z 2).

(** The picture [process_frame] leaves in a frame that held [a], for
    detectors in the states of [p_] and [h_]: both detectors look at the
    RGB copy of [a]; the pose overlay, if a pose is found, goes on [a],
    and the overlays of the hands found go on top, in order. *)
Definition annotated (p_ : mediapipe.Solution PoseGraph)
    (h_ : mediapipe.Solution HandsGraph) (a : cv2.ndarray) : cv2.ndarray :=
  let rgb := cv2.bgr2rgb a in
  let a1 :=
    match fst (mediapipe.Pose_process mp (mediapipe.graph p_) rgb) with
    | Some landmarks => pose_overlay a landmarks
    | None => a
    end in
  fold_left hand_overlay
    (default [] (fst (mediapipe.Hands_process mp (mediapipe.graph h_) rgb))) a1.

(** [VideoTransformTrack.recv] *)
Definition recv : M Obj (option av.VideoFrame) :=
  c <- getattr "cap" cap ;;
  rd <- in_world (cv2.read c) ;;
  let '(ret_, frame) := rd in
  if negb ret_ then
    ret None
  else
    processed_frame <- process_frame frame ;;
    frame <- in_world (cv2.cvtColor processed_frame cv2.COLOR_BGR2RGB) ;;
    video_frame <- in_world (av.from_ndarray frame "rgb24") ;;
    p <- getattr "pts" pts ;;
    let video_frame := av.set_pts video_frame p in
    tb <- getattr "time_base" time_base ;;
    let video_frame := av.set_time_base video_frame tb in
    p <- getattr "pts" pts ;;
    setattr_pts (p + 1) ;;
    ret (Some video_frame).

(** [VideoTransformTrack.__del__] *)
Definition __del__ : M Obj unit :=
  o <- get ;;
  match cap (self o) with
  | Some c => setattr_cap (cv2.release c)
  | None => ret tt
  end ;;
  o <- get ;;
  match pose (self o) with
  | Some p => setattr_pose (mediapipe.close p)
  | None => ret tt
  end ;;
  o <- get ;;
  match hands (self o) with
  | Some h => setattr_hands (mediapipe.close h)
  | None => ret tt
  end.

(** The class call [VideoTransformTrack()]. *)
Definition new_VideoTransformTrack : M cv2.World VideoTransformTrack :=
  fun w =>
    match __init__ {| self := blank; world := w |} with
    | (Returned _, o) => (Returned (self o), world o)
    | (Raised e, o) => (Raised e, world o)
    end.

Definition Server : Type := signaling.Server VideoTransformTrack.

Definition offer : aiortc.Negotiation -> web.Request -> M Server web.Response :=
  signaling.offer new_VideoTransformTrack.

Definition main : list signaling.Event -> M Server unit :=
  signaling.main new_VideoTransformTrack.

End WithLibrary.
End camera_stream_pose.

(** ** Sample inputs

    Concrete worlds, libraries and requests, on which the properties below
    are also evaluated. *)
Module sample.

(** An image without anything to detect, one with a pose (its first
    pixel is pure red in RGB), one with hands (pure blue). *)
Definition plain_image : cv2.ndarray := [[(10, 20, 30); (40, 50, 60)]]%Z.
Definition pose_image : cv2.ndarray := [[(0, 0, 255); (40, 50, 60)]]%Z.
Definition hands_image : cv2.ndarray := [[(255, 0, 0); (40, 50, 60)]]%Z.

(** A camera that opens; its reads deliver a frame and fail in turn. *)
Definition world : cv2.World :=
  {| cv2.open_result := fun _ _ => true;
     cv2.read_result := fun k => if Nat.even k then Some plain_image else None;
     cv2.open_calls := 0; cv2.read_calls := 0; cv2.arrays := [] |}.

(** A camera that cannot be opened. *)
Definition no_camera : cv2.World :=
  {| cv2.open_result := fun _ _ => false;
     cv2.read_result := fun _ => None;
     cv2.open_calls := 0; cv2.read_calls := 0; cv2.arrays := [] |}.

(** The tracks the two programs construct in [world]. *)
Definition track : camera_stream.Obj :=
  {| camera_stream.self :=
       camera_stream.assigned cv2.configured (QArith_base.Qmake 1 30) 0;
     camera_stream.world := cv2.count_open world |}.

Definition pose_track : @camera_stream_pose.Obj nat nat :=
  {| camera_stream_pose.self :=
       camera_stream_pose.assigned cv2.configured
         (mediapipe.fresh_solution 0) (mediapipe.fresh_solution 0)
         (QArith_base.Qmake 1 30) 0;
     camera_stream_pose.world := cv2.count_open world |}.

Definition first_pixel (a : cv2.ndarray) : option cv2.pixel :=
  match a with
  | (px :: _) :: _ => Some px
  | _ => None
  end.

Definition a_landmark_list : mediapipe.NormalizedLandmarkList :=
  [(QArith_base.Qmake 1 2, QArith_base.Qmake 1 2, QArith_base.Qmake 0 1)].

(** Detectors that count the images they saw; a pose is a pure red first
    pixel, two hands a pure blue one; drawing puts a row in the joint
    colour on top of the picture. *)
Definition library : mediapipe.Library nat nat :=
  {| mediapipe.new_Pose := fun _ _ => Returned 0;
     mediapipe.new_Hands := fun _ _ => Returned 0;
     mediapipe.Pose_process := fun g a =>
       (match first_pixel a with
        | Some (255, 0, 0)%Z => Some a_landmark_list
        | _ => None
        end, S g);
     mediapipe.Hands_process := fun g a =>
       (match first_pixel a with
        | Some (0, 0, 255)%Z => Some [a_landmark_list; a_landmark_list]
        | _ => None
        end, S g);
     mediapipe.draw := fun a _ _ joints _ => [mediapipe.color joints] :: a |}.

(** The same detectors with a drawing routine that blanks the picture. *)
Definition blanking_library : mediapipe.Library nat nat :=
  {| mediapipe.new_Pose := mediapipe.new_Pose library;
     mediapipe.new_Hands := mediapipe.new_Hands library;
     mediapipe.Pose_process := mediapipe.Pose_process library;
     mediapipe.Hands_process := mediapipe.Hands_process library;
     mediapipe.draw := fun _ _ _ _ _ => [] |}.

(** A library whose pose detector cannot be created. *)
Definition library_without_pose : mediapipe.Library nat nat :=
  {| mediapipe.new_Pose := fun _ _ => Raised (mkExc RuntimeError "no model");
     mediapipe.new_Hands := mediapipe.new_Hands library;
     mediapipe.Pose_process := mediapipe.Pose_process library;
     mediapipe.Hands_process := mediapipe.Hands_process library;
     mediapipe.draw := mediapipe.draw library |}.

(** A library whose hand detector cannot be created. *)
Definition library_without_hands : mediapipe.Library nat nat :=
  {| mediapipe.new_Pose := mediapipe.new_Pose library;
     mediapipe.new_Hands := fun _ _ => Raised (mkExc RuntimeError "no model");
     mediapipe.Pose_process := mediapipe.Pose_process library;
     mediapipe.Hands_process := mediapipe.Hands_process library;
     mediapipe.draw := mediapipe.draw library |}.

Definition an_offer : aiortc.RTCSessionDescription :=
  {| aiortc.sdp := JString "v=0"; aiortc.type := "offer" |}.

Definition an_answer : aiortc.RTCSessionDescription :=
  {| aiortc.sdp := JString "v=0"; aiortc.type := "answer" |}.

(** A request as the page sends it, and two that lack a field. *)
Definition request : web.Request :=
  {| web.body := Some (JObject [("sdp", JString "v=0"); ("type", JString "offer")]) |}.

Definition request_without_type : web.Request :=
  {| web.body := Some (JObject [("sdp", JString "v=0")]) |}.

(** A request whose [sdp] member is there but is a number, and the
    negotiation it meets: the constructor of the description accepts it,
    and applying it as the remote description raises. *)
Definition request_with_malformed_sdp : web.Request :=
  {| web.body := Some (JObject [("sdp", JInt 123); ("type", JString "offer")]) |}.

Definition negotiation_refusing_sdp : aiortc.Negotiation :=
  {| aiortc.addTrack_raises := None;
     aiortc.setRemoteDescription_raises :=
       Some (mkExc AttributeError "'int' object has no attribute 'splitlines'");
     aiortc.createAnswer_result :=
       Returned {| aiortc.sdp := JString "v=0"; aiortc.type := "answer" |};
     aiortc.setLocalDescription_raises := None;
     aiortc.localDescription :=
       {| aiortc.sdp := JString "v=0"; aiortc.type := "answer" |} |}.

(** A request whose [type] is none of the description types. *)
Definition request_of_unknown_type : web.Request :=
  {| web.body := Some (JObject [("sdp", JString "v=0"); ("type", JString "bogus")]) |}.

Definition request_without_sdp : web.Request :=
  {| web.body := Some (JObject [("type", JString "offer")]) |}.

(** A negotiation in which no step raises, and one in which applying the
    remote description does. *)
Definition negotiation : aiortc.Negotiation :=
  {| aiortc.addTrack_raises := None;
     aiortc.setRemoteDescription_raises := None;
     aiortc.createAnswer_result := Returned an_answer;
     aiortc.setLocalDescription_raises := None;
     aiortc.localDescription := an_answer |}.

Definition failing_negotiation : aiortc.Negotiation :=
  {| aiortc.addTrack_raises := None;
     aiortc.setRemoteDescription_raises := Some (mkExc ValueError "bad sdp");
     aiortc.createAnswer_result := Returned an_answer;
     aiortc.setLocalDescription_raises := None;
     aiortc.localDescription := an_answer |}.

(** The process at start: no connection yet. *)
Definition server {Track} (w : cv2.World) : signaling.Server Track :=
  {| signaling.pcs := ∅; signaling.conns := []; signaling.world := w |}.

End sample.

(** * Properties *)

(** ** Stepping through a computation *)

Lemma bind_returned {St A B} (m : M St A) (k : A -> M St B) s a s' :
  m s = (Returned a, s') -> bind m k s = k a s'.
Proof. intros E. unfold bind. by rewrite E. Qed.

Lemma bind_raised {St A B} (m : M St A) (k : A -> M St B) s e s' :
  m s = (Raised e, s') -> bind m k s = (Raised e, s').
Proof. intros E. unfold bind. by rewrite E. Qed.

Lemma in_world_spec {St} `{HasWorld St} {A} (m : M cv2.World A) (s : St) r w' :
  m (the_world s) = (r, w') -> in_world m s = (r, with_world w' s).
Proof. intros E. unfold in_world. by rewrite E. Qed.

(** One statement that returns, taken by computation. *)
Ltac run := erewrite bind_returned; [ | reflexivity ].

(** ** The array store *)

Lemma lookup_fresh {A} (l : list A) (x : A) : (l ++ [x]) !! length l = Some x.
Proof. by apply list_lookup_middle. Qed.

Lemma set_arrays_id (w : cv2.World) r a :
  cv2.arrays w !! r = Some a -> cv2.set_arrays (<[r := a]> (cv2.arrays w)) w = w.
Proof.
  intros E. destruct w; unfold cv2.set_arrays; simpl in *.
  by rewrite list_insert_id.
Qed.

Lemma contents_spec w r a :
  cv2.arrays w !! r = Some a -> cv2.contents (Some r) w = (Returned a, w).
Proof. intros E. unfold cv2.contents. by rewrite E. Qed.

Lemma cvtColor_spec w r a :
  cv2.arrays w !! r = Some a ->
  cv2.cvtColor (Some r) cv2.COLOR_BGR2RGB w =
  (Returned (length (cv2.arrays w)),
   cv2.set_arrays (cv2.arrays w ++ [cv2.bgr2rgb a]) w).
Proof.
  intros E. unfold cv2.cvtColor.
  by rewrite (bind_returned _ _ _ _ _ (contents_spec _ _ _ E)).
Qed.

Lemma from_ndarray_spec w r a fmt :
  cv2.arrays w !! r = Some a ->
  av.from_ndarray r fmt w =
  (Returned {| av.planes := a; av.format := fmt; av.pts := None;
               av.time_base := None |}, w).
Proof.
  intros E. unfold av.from_ndarray.
  by rewrite (bind_returned _ _ _ _ _ (contents_spec _ _ _ E)).
Qed.

(** The colour conversion is its own inverse, so it loses nothing. *)
Lemma bgr2rgb_involutive a : cv2.bgr2rgb (cv2.bgr2rgb a) = a.
Proof.
  unfold cv2.bgr2rgb. rewrite <- list_fmap_compose.
  rewrite <- (list_fmap_id a) at 2. apply list_fmap_ext. intros _ row _.
  simpl. rewrite <- list_fmap_compose.
  rewrite <- (list_fmap_id row) at 2. apply list_fmap_ext.
  by intros _ [[c0 c1] c2] _.
Qed.

Lemma insert_fresh_middle {A} (l : list A) (x y z : A) :
  <[length l := y]> ((l ++ [x]) ++ [z]) = l ++ [y; z].
Proof.
  rewrite <- app_assoc. rewrite insert_app_r_alt by done.
  by rewrite Nat.sub_diag.
Qed.

(** ** The device *)

Lemma frames_read_step (w w1 : cv2.World) (n : nat) :
  cv2.read_result w1 = cv2.read_result w ->
  cv2.read_calls w1 = S (cv2.read_calls w) ->
  cv2.frames_read w (S n) =
  match cv2.read_result w (cv2.read_calls w) with
  | Some a => a :: cv2.frames_read w1 n
  | None => cv2.frames_read w1 n
  end.
Proof.
  intros Hr Hc. unfold cv2.frames_read. rewrite Hr, Hc. cbn [seq omap list_omap].
  by destruct (cv2.read_result w (cv2.read_calls w)).
Qed.

(** ** The track of camera_stream.py *)

Lemma plain_init_spec w :
  camera_stream.__init__
    {| camera_stream.self := camera_stream.blank; camera_stream.world := w |} =
  if cv2.open_result w 0 (cv2.open_calls w) then
    (Returned tt,
     {| camera_stream.self :=
          camera_stream.assigned cv2.configured (QArith_base.Qmake 1 30) 0;
        camera_stream.world := cv2.count_open w |})
  else
    (Raised (mkExc RuntimeError "No se pudo abrir la cámara"),
     {| camera_stream.self :=
          {| camera_stream.cap := Some cv2.unopened;
             camera_stream.time_base := None; camera_stream.pts := None |};
        camera_stream.world := cv2.count_open w |}).
Proof.
  unfold camera_stream.__init__, bind, in_world, cv2.new_VideoCapture; simpl.
  by destruct (cv2.open_result w 0 (cv2.open_calls w)).
Qed.

(** One invocation of [recv] on a track with every attribute assigned. *)
Lemma plain_recv_step c tb p w :
  camera_stream.recv
    {| camera_stream.self := camera_stream.assigned c tb p;
       camera_stream.world := w |} =
  if cv2.opened c then
    match cv2.read_result w (cv2.read_calls w) with
    | Some a =>
        (Returned (Some {| av.planes := cv2.bgr2rgb a; av.format := "rgb24";
                           av.pts := Some p; av.time_base := Some tb |}),
         {| camera_stream.self := camera_stream.assigned c tb (p + 1);
            camera_stream.world :=
              cv2.set_arrays (cv2.arrays w ++ [a; cv2.bgr2rgb a])
                (cv2.count_read w) |})
    | None =>
        (Returned None,
         {| camera_stream.self := camera_stream.assigned c tb p;
            camera_stream.world := cv2.count_read w |})
    end
  else
    (Returned None,
     {| camera_stream.self := camera_stream.assigned c tb p;
        camera_stream.world := w |}).
Proof.
  unfold camera_stream.recv. run. unfold cv2.read.
  destruct (cv2.opened c); [ | by run ].
  destruct (cv2.read_result w (cv2.read_calls w)) as [a|] eqn:E.
  - erewrite bind_returned; cycle 1.
    { apply in_world_spec. simpl. rewrite E. reflexivity. }
    cbn [negb].
    erewrite bind_returned; cycle 1.
    { apply in_world_spec, cvtColor_spec. simpl. apply lookup_fresh. }
    erewrite bind_returned; cycle 1.
    { apply in_world_spec, from_ndarray_spec. simpl. apply lookup_fresh. }
    do 4 run. unfold ret. simpl. by rewrite <- app_assoc.
  - erewrite bind_returned; cycle 1.
    { apply in_world_spec. simpl. rewrite E. reflexivity. }
    reflexivity.
Qed.

(** The frames a run delivers carry the counter values [p], [p + 1], ... . *)
Lemma pts_of_emitted_cons (p : Z) (f : av.VideoFrame) (fs : list av.VideoFrame) :
  av.pts f = Some p ->
  av.pts <$> fs = (fun i => Some (p + 1 + Z.of_nat i)%Z) <$> seq 0 (length fs) ->
  av.pts <$> (f :: fs) =
  (fun i => Some (p + Z.of_nat i)%Z) <$> seq 0 (length (f :: fs)).
Proof.
  intros Hf Hfs. cbn [fmap list_fmap length seq].
  change (list_fmap _ _ ?g ?l) with (g <$> l).
  rewrite Hf, Z.add_0_r. f_equal. rewrite Hfs.
  rewrite <- fmap_S_seq, <- list_fmap_compose.
  apply list_fmap_ext. intros _ i _. simpl. f_equal. lia.
Qed.

Lemma pts_from_zero (fs : list av.VideoFrame) :
  av.pts <$> fs = (fun i => Some (0 + Z.of_nat i)%Z) <$> seq 0 (length fs) ->
  forall (i : nat) (f : av.VideoFrame),
    fs !! i = Some f -> av.pts f = Some (Z.of_nat i).
Proof.
  intros Hp i f Hi.
  assert (Hl : (av.pts <$> fs) !! i = Some (av.pts f))
    by (by rewrite list_lookup_fmap, Hi).
  rewrite Hp, list_lookup_fmap in Hl.
  rewrite lookup_seq_lt in Hl by (by eapply lookup_lt_Some).
  simpl in Hl. by injection Hl as <-.
Qed.

(** What any number of invocations does to a track with every attribute
    assigned: no invocation raises, the counter advances by the number of
    frames delivered, and the frames carry consecutive counter values and
    the track's time base. *)
Lemma plain_recvs_assigned n : forall c tb p w,
  let run_ :=
    invocations n camera_stream.recv
      {| camera_stream.self := camera_stream.assigned c tb p;
         camera_stream.world := w |} in
  camera_stream.self (snd run_) =
    camera_stream.assigned c tb (p + Z.of_nat (length (emitted (fst run_)))) /\
  Forall (fun r => exists v, r = Returned v) (fst run_) /\
  av.pts <$> emitted (fst run_) =
    (fun i => Some (p + Z.of_nat i)%Z) <$> seq 0 (length (emitted (fst run_))) /\
  Forall (fun f => av.time_base f = Some tb) (emitted (fst run_)).
Proof.
  induction n as [|n IH]; intros c tb p w; cbn [invocations].
  - simpl. rewrite Z.add_0_r. repeat split; constructor.
  - rewrite plain_recv_step.
    destruct (cv2.opened c);
      [ destruct (cv2.read_result w (cv2.read_calls w)) as [a|] | ].
    + specialize (IH c tb (p + 1)%Z
        (cv2.set_arrays (cv2.arrays w ++ [a; cv2.bgr2rgb a]) (cv2.count_read w))).
      destruct (invocations n camera_stream.recv _) as [rs o].
      cbn [fst snd] in *. destruct IH as (Hs & Hr & Hp & Ht).
      change (emitted (Returned (Some ?f) :: rs)) with (f :: emitted rs).
      repeat split.
      * rewrite Hs. f_equal. cbn [length]. lia.
      * constructor; eauto.
      * by apply pts_of_emitted_cons.
      * by constructor.
    + specialize (IH c tb p (cv2.count_read w)).
      destruct (invocations n camera_stream.recv _) as [rs o].
      cbn [fst snd] in *. destruct IH as (Hs & Hr & Hp & Ht).
      change (emitted (Returned None :: rs)) with (emitted rs).
      repeat split; eauto.
    + specialize (IH c tb p w).
      destruct (invocations n camera_stream.recv _) as [rs o].
      cbn [fst snd] in *. destruct IH as (Hs & Hr & Hp & Ht).
      change (emitted (Returned None :: rs)) with (emitted rs).
      repeat split; eauto.
Qed.


(** The outcome of each of [n] invocations on an open capture: a frame,
    carrying the number of frames read before it, for a read that
    succeeds, and [None] for a read that fails. *)
Lemma plain_recvs_outcomes n : forall c tb p w k,
  cv2.opened c = true ->
  k < n ->
  let rs :=
    fst (invocations n camera_stream.recv
           {| camera_stream.self := camera_stream.assigned c tb p;
              camera_stream.world := w |}) in
  match cv2.read_result w (cv2.read_calls w + k) with
  | Some _ =>
      exists f,
        rs !! k = Some (Returned (Some f)) /\
        av.pts f = Some (p + Z.of_nat (length (cv2.frames_read w k)))%Z /\
        av.time_base f = Some tb
  | None => rs !! k = Some (Returned None)
  end.
Proof.
  induction n as [|n IH]; intros c tb p w k Hc Hk; [ lia | ].
  cbv zeta. cbn [invocations]. rewrite plain_recv_step, Hc.
  destruct k as [|k].
  - rewrite Nat.add_0_r.
    destruct (cv2.read_result w (cv2.read_calls w)) as [a|];
      destruct (invocations n camera_stream.recv _) as [rs o]; cbn.
    + eexists. split; [ reflexivity | ]. cbn. by rewrite Z.add_0_r.
    + reflexivity.
  - destruct (cv2.read_result w (cv2.read_calls w)) as [a|] eqn:Ha.
    + pose proof (IH c tb (p + 1)%Z
        (cv2.set_arrays (cv2.arrays w ++ [a; cv2.bgr2rgb a]) (cv2.count_read w))
        k Hc ltac:(lia)) as IH1.
      cbv zeta in IH1.
      rewrite (frames_read_step w
        (cv2.set_arrays (cv2.arrays w ++ [a; cv2.bgr2rgb a]) (cv2.count_read w)) k)
        by done.
      rewrite Ha.
      replace (cv2.read_calls w + S k) with (S (cv2.read_calls w) + k) by lia.
      destruct (invocations n camera_stream.recv _) as [rs o].
      cbn [fst snd lookup list_lookup] in *.
      cbn [cv2.read_result cv2.read_calls cv2.set_arrays cv2.count_read] in IH1.
      destruct (cv2.read_result w (S (cv2.read_calls w) + k)); [ | exact IH1 ].
      destruct IH1 as (f & Hf & Hp & Ht). exists f.
      split; [ exact Hf | split; [ | exact Ht ] ].
      rewrite Hp. f_equal. cbn [length]. lia.
    + pose proof (IH c tb p (cv2.count_read w) k Hc ltac:(lia)) as IH1.
      cbv zeta in IH1.
      rewrite (frames_read_step w (cv2.count_read w) k) by done.
      rewrite Ha.
      replace (cv2.read_calls w + S k) with (S (cv2.read_calls w) + k) by lia.
      destruct (invocations n camera_stream.recv _) as [rs o].
      cbn [fst snd lookup list_lookup] in *.
      cbn [cv2.read_result cv2.read_calls cv2.count_read] in IH1.
      exact IH1.
Qed.

(** ** The track of camera_stream_pose.py *)
Section pose_facts.

Context {PoseGraph HandsGraph : Type}.
Variable mp : mediapipe.Library PoseGraph HandsGraph.

Let half := QArith_base.Qmake 1 2.

Lemma pose_init_spec w :
  camera_stream_pose.__init__ mp
    {| camera_stream_pose.self := camera_stream_pose.blank;
       camera_stream_pose.world := w |} =
  if cv2.open_result w 0 (cv2.open_calls w) then
    match mediapipe.new_Pose mp half half with
    | Returned gp =>
        match mediapipe.new_Hands mp half half with
        | Returned gh =>
            (Returned tt,
             {| camera_stream_pose.self :=
                  camera_stream_pose.assigned cv2.configured
                    (mediapipe.fresh_solution gp) (mediapipe.fresh_solution gh)
                    (QArith_base.Qmake 1 30) 0;
                camera_stream_pose.world := cv2.count_open w |})
        | Raised e =>
            (Raised e,
             {| camera_stream_pose.self :=
                  {| camera_stream_pose.cap := Some cv2.configured;
                     camera_stream_pose.mp_drawing := Some mediapipe.drawing_utils;
                     camera_stream_pose.mp_pose := Some mediapipe.solutions_pose;
                     camera_stream_pose.mp_hands := Some mediapipe.solutions_hands;
                     camera_stream_pose.pose := Some (mediapipe.fresh_solution gp);
                     camera_stream_pose.hands := None;
                     camera_stream_pose.time_base := None;
                     camera_stream_pose.pts := None |};
                camera_stream_pose.world := cv2.count_open w |})
        end
    | Raised e =>
        (Raised e,
         {| camera_stream_pose.self :=
              {| camera_stream_pose.cap := Some cv2.configured;
                 camera_stream_pose.mp_drawing := Some mediapipe.drawing_utils;
                 camera_stream_pose.mp_pose := Some mediapipe.solutions_pose;
                 camera_stream_pose.mp_hands := Some mediapipe.solutions_hands;
                 camera_stream_pose.pose := None;
                 camera_stream_pose.hands := None;
                 camera_stream_pose.time_base := None;
                 camera_stream_pose.pts := None |};
            camera_stream_pose.world := cv2.count_open w |})
    end
  else
    (Raised (mkExc RuntimeError "No se pudo abrir la cámara"),
     {| camera_stream_pose.self :=
          {| camera_stream_pose.cap := Some cv2.unopened;
             camera_stream_pose.mp_drawing := None;
             camera_stream_pose.mp_pose := None;
             camera_stream_pose.mp_hands := None;
             camera_stream_pose.pose := None;
             camera_stream_pose.hands := None;
             camera_stream_pose.time_base := None;
             camera_stream_pose.pts := None |};
        camera_stream_pose.world := cv2.count_open w |}).
Proof.
  unfold camera_stream_pose.__init__, bind, in_world, cv2.new_VideoCapture,
    lift_result, half; simpl.
  destruct (cv2.open_result w 0 (cv2.open_calls w)); [ | done ]. simpl.
  destruct (mediapipe.new_Pose mp _ _); [ | done ]. simpl.
  by destruct (mediapipe.new_Hands mp _ _).
Qed.

Lemma pose_process_spec c p_ h_ tb p w i x :
  cv2.arrays w !! i = Some x ->
  camera_stream_pose.pose_process mp i
    {| camera_stream_pose.self := camera_stream_pose.assigned c p_ h_ tb p;
       camera_stream_pose.world := w |} =
  (Returned (fst (mediapipe.Pose_process mp (mediapipe.graph p_) x)),
   {| camera_stream_pose.self :=
        camera_stream_pose.assigned c
          (mediapipe.after_process p_ x
             (snd (mediapipe.Pose_process mp (mediapipe.graph p_) x)))
          h_ tb p;
      camera_stream_pose.world := w |}).
Proof.
  intros Hi. unfold camera_stream_pose.pose_process. run.
  erewrite bind_returned; [ | apply in_world_spec, contents_spec, Hi ].
  by destruct (mediapipe.Pose_process mp (mediapipe.graph p_) x).
Qed.

Lemma hands_process_spec c p_ h_ tb p w i x :
  cv2.arrays w !! i = Some x ->
  camera_stream_pose.hands_process mp i
    {| camera_stream_pose.self := camera_stream_pose.assigned c p_ h_ tb p;
       camera_stream_pose.world := w |} =
  (Returned (fst (mediapipe.Hands_process mp (mediapipe.graph h_) x)),
   {| camera_stream_pose.self :=
        camera_stream_pose.assigned c p_
          (mediapipe.after_process h_ x
             (snd (mediapipe.Hands_process mp (mediapipe.graph h_) x)))
          tb p;
      camera_stream_pose.world := w |}).
Proof.
  intros Hi. unfold camera_stream_pose.hands_process. run.
  erewrite bind_returned; [ | apply in_world_spec, contents_spec, Hi ].
  by destruct (mediapipe.Hands_process mp (mediapipe.graph h_) x).
Qed.

(** Painting changes the painted array object and nothing else. *)
Lemma draw_landmarks_spec (t : camera_stream_pose.VideoTransformTrack)
    w r a l k s1 s2 :
  cv2.arrays w !! r = Some a ->
  camera_stream_pose.draw_landmarks mp (Some r) l k s1 s2
    {| camera_stream_pose.self := t; camera_stream_pose.world := w |} =
  (Returned tt,
   {| camera_stream_pose.self := t;
      camera_stream_pose.world :=
        cv2.set_arrays (<[r := mediapipe.draw mp a l k s1 s2]> (cv2.arrays w)) w |}).
Proof.
  intros Hr. unfold camera_stream_pose.draw_landmarks.
  erewrite bind_returned; [ | apply in_world_spec, contents_spec, Hr ].
  reflexivity.
Qed.

(** The loop over the hands found paints their overlays one on another. *)
Lemma draw_hands_spec (hs : list mediapipe.NormalizedLandmarkList) :
  forall c p_ h_ tb p w r a,
  cv2.arrays w !! r = Some a ->
  for_each hs (fun hand_landmarks =>
      _ <- camera_stream_pose.getattr "mp_drawing" camera_stream_pose.mp_drawing ;;
      _ <- camera_stream_pose.getattr "mp_hands" camera_stream_pose.mp_hands ;;
      landmark_drawing_spec <- camera_stream_pose.DrawingSpec (0, 0, 255)%Z 2 ;;
      connection_drawing_spec <- camera_stream_pose.DrawingSpec (255, 255, 0)%Z 2 ;;
      camera_stream_pose.draw_landmarks mp (Some r) hand_landmarks
        mediapipe.HAND_CONNECTIONS landmark_drawing_spec connection_drawing_spec)
    {| camera_stream_pose.self := camera_stream_pose.assigned c p_ h_ tb p;
       camera_stream_pose.world := w |} =
  (Returned tt,
   {| camera_stream_pose.self := camera_stream_pose.assigned c p_ h_ tb p;
      camera_stream_pose.world :=
        cv2.set_arrays
          (<[r := fold_left (camera_stream_pose.hand_overlay mp) hs a]> (cv2.arrays w))
          w |}).
Proof.
  induction hs as [|h hs IH]; intros c p_ h_ tb p w r a Hr.
  - simpl. unfold ret. by rewrite set_arrays_id.
  - cbn [for_each fold_left].
    erewrite bind_returned; cycle 1.
    { do 4 run. by apply draw_landmarks_spec. }
    rewrite (IH c p_ h_ tb p _ r (camera_stream_pose.hand_overlay mp a h)).
    + simpl. by rewrite list_insert_insert_eq.
    + simpl. apply list_lookup_insert_eq. by eapply lookup_lt_Some.
Qed.

(** [process_frame] on a frame that holds [a]: it returns the same array
    object, now holding [annotated]; each detector has processed the RGB
    copy of [a] once; the copy is the one new array. *)
Lemma process_frame_spec c p_ h_ tb p w r a :
  cv2.arrays w !! r = Some a ->
  camera_stream_pose.process_frame mp (Some r)
    {| camera_stream_pose.self := camera_stream_pose.assigned c p_ h_ tb p;
       camera_stream_pose.world := w |} =
  (Returned (Some r),
   {| camera_stream_pose.self :=
        camera_stream_pose.assigned c
          (mediapipe.after_process p_ (cv2.bgr2rgb a)
             (snd (mediapipe.Pose_process mp (mediapipe.graph p_) (cv2.bgr2rgb a))))
          (mediapipe.after_process h_ (cv2.bgr2rgb a)
             (snd (mediapipe.Hands_process mp (mediapipe.graph h_) (cv2.bgr2rgb a))))
          tb p;
      camera_stream_pose.world :=
        cv2.set_arrays
          (<[r := camera_stream_pose.annotated mp p_ h_ a]>
             (cv2.arrays w ++ [cv2.bgr2rgb a])) w |}).
Proof.
  intros Hr. unfold camera_stream_pose.annotated.
  assert (Hlt : r < length (cv2.arrays w)) by (by eapply lookup_lt_Some).
  unfold camera_stream_pose.process_frame.
  erewrite bind_returned; [ | apply in_world_spec, cvtColor_spec, Hr ].
  erewrite bind_returned; cycle 1.
  { apply pose_process_spec. simpl. apply lookup_fresh. }
  set (pl := fst (mediapipe.Pose_process mp _ _)).
  set (a1 := match pl with
             | Some l => camera_stream_pose.pose_overlay mp a l
             | None => a
             end).
  erewrite bind_returned with (a := tt)
    (s' := {| camera_stream_pose.self := _;
              camera_stream_pose.world :=
                cv2.set_arrays (<[r := a1]> (cv2.arrays w ++ [cv2.bgr2rgb a])) w |});
    cycle 1.
  { subst a1. destruct pl as [l|].
    - do 4 run.
      rewrite (draw_landmarks_spec _ _ r a); [ done | ].
      simpl. by rewrite lookup_app_l.
    - unfold ret. simpl. rewrite list_insert_id; [ done | ].
      by rewrite lookup_app_l. }
  assert (H1 : (<[r := a1]> (cv2.arrays w ++ [cv2.bgr2rgb a])) !! r = Some a1).
  { apply list_lookup_insert_eq. rewrite length_app. lia. }
  assert (H2 : (<[r := a1]> (cv2.arrays w ++ [cv2.bgr2rgb a]))
                 !! length (cv2.arrays w) = Some (cv2.bgr2rgb a)).
  { rewrite list_lookup_insert_ne by lia. apply lookup_fresh. }
  erewrite bind_returned; [ | apply hands_process_spec; simpl; exact H2 ].
  set (hl := fst (mediapipe.Hands_process mp _ _)).
  erewrite bind_returned with (a := tt)
    (s' := {| camera_stream_pose.self := _;
              camera_stream_pose.world :=
                cv2.set_arrays
                  (<[r := fold_left (camera_stream_pose.hand_overlay mp)
                            (default [] hl) a1]>
                     (cv2.arrays w ++ [cv2.bgr2rgb a])) w |});
    cycle 1.
  { destruct hl as [[|h hs]|].
    - unfold ret. simpl. done.
    - rewrite (draw_hands_spec (h :: hs) _ _ _ _ _ _ r a1); [ | exact H1 ].
      simpl. by rewrite list_insert_insert_eq.
    - unfold ret. simpl. done. }
  done.
Qed.

(** One invocation of [recv] on a track with every attribute assigned. *)
Lemma pose_recv_step c p_ h_ tb p w :
  camera_stream_pose.recv mp
    {| camera_stream_pose.self := camera_stream_pose.assigned c p_ h_ tb p;
       camera_stream_pose.world := w |} =
  if cv2.opened c then
    match cv2.read_result w (cv2.read_calls w) with
    | Some a =>
        (Returned (Some {| av.planes :=
                             cv2.bgr2rgb (camera_stream_pose.annotated mp p_ h_ a);
                           av.format := "rgb24";
                           av.pts := Some p; av.time_base := Some tb |}),
         {| camera_stream_pose.self :=
              camera_stream_pose.assigned c
                (mediapipe.after_process p_ (cv2.bgr2rgb a)
                   (snd (mediapipe.Pose_process mp (mediapipe.graph p_) (cv2.bgr2rgb a))))
                (mediapipe.after_process h_ (cv2.bgr2rgb a)
                   (snd (mediapipe.Hands_process mp (mediapipe.graph h_) (cv2.bgr2rgb a))))
                tb (p + 1);
            camera_stream_pose.world :=
              cv2.set_arrays
                (cv2.arrays w ++
                 [camera_stream_pose.annotated mp p_ h_ a; cv2.bgr2rgb a;
                  cv2.bgr2rgb (camera_stream_pose.annotated mp p_ h_ a)])
                (cv2.count_read w) |})
    | None =>
        (Returned None,
         {| camera_stream_pose.self := camera_stream_pose.assigned c p_ h_ tb p;
            camera_stream_pose.world := cv2.count_read w |})
    end
  else
    (Returned None,
     {| camera_stream_pose.self := camera_stream_pose.assigned c p_ h_ tb p;
        camera_stream_pose.world := w |}).
Proof.
  unfold camera_stream_pose.recv. run. unfold cv2.read.
  destruct (cv2.opened c); [ | by run ].
  destruct (cv2.read_result w (cv2.read_calls w)) as [a|] eqn:E.
  - erewrite bind_returned; cycle 1.
    { apply in_world_spec. simpl. rewrite E. reflexivity. }
    cbn [negb].
    erewrite bind_returned; cycle 1.
    { apply process_frame_spec. simpl. apply lookup_fresh. }
    set (pic := camera_stream_pose.annotated mp p_ h_ a).
    erewrite bind_returned; cycle 1.
    { apply in_world_spec, cvtColor_spec with (a := pic). simpl.
      rewrite insert_fresh_middle. by apply list_lookup_middle. }
    erewrite bind_returned; cycle 1.
    { apply in_world_spec, from_ndarray_spec. simpl. apply lookup_fresh. }
    do 4 run. unfold ret. simpl. rewrite insert_fresh_middle.
    by rewrite <- app_assoc.
  - erewrite bind_returned; cycle 1.
    { apply in_world_spec. simpl. rewrite E. reflexivity. }
    reflexivity.
Qed.

(** What any number of invocations does to a track with every attribute
    assigned; the detectors move on, and nobody closes them. *)
Lemma pose_recvs_assigned n : forall c p_ h_ tb p w,
  let run_ :=
    invocations n (camera_stream_pose.recv mp)
      {| camera_stream_pose.self := camera_stream_pose.assigned c p_ h_ tb p;
         camera_stream_pose.world := w |} in
  (exists p1 h1,
     camera_stream_pose.self (snd run_) =
       camera_stream_pose.assigned c p1 h1 tb
         (p + Z.of_nat (length (emitted (fst run_)))) /\
     mediapipe.close_calls p1 = mediapipe.close_calls p_ /\
     mediapipe.close_calls h1 = mediapipe.close_calls h_) /\
  Forall (fun r => exists v, r = Returned v) (fst run_) /\
  av.pts <$> emitted (fst run_) =
    (fun i => Some (p + Z.of_nat i)%Z) <$> seq 0 (length (emitted (fst run_))) /\
  Forall (fun f => av.time_base f = Some tb) (emitted (fst run_)).
Proof.
  induction n as [|n IH]; intros c p_ h_ tb p w; cbn [invocations].
  - simpl. rewrite Z.add_0_r. repeat split; try constructor.
    by exists p_, h_.
  - rewrite pose_recv_step.
    destruct (cv2.opened c);
      [ destruct (cv2.read_result w (cv2.read_calls w)) as [a|] | ].
    + match goal with
      | |- context [invocations n _ {| camera_stream_pose.self :=
               camera_stream_pose.assigned _ ?p1 ?h1 _ _;
               camera_stream_pose.world := ?w1 |}] =>
          specialize (IH c p1 h1 tb (p + 1)%Z w1)
      end.
      destruct (invocations n (camera_stream_pose.recv mp) _) as [rs o].
      cbn [fst snd] in *.
      destruct IH as ((p1 & h1 & Hs & Hcp & Hch) & Hr & Hp & Ht).
      change (emitted (Returned (Some ?f) :: rs)) with (f :: emitted rs).
      repeat split.
      * exists p1, h1. repeat split; [ | done | done ].
        rewrite Hs. f_equal. cbn [length]. lia.
      * constructor; eauto.
      * by apply pts_of_emitted_cons.
      * by constructor.
    + specialize (IH c p_ h_ tb p (cv2.count_read w)).
      destruct (invocations n (camera_stream_pose.recv mp) _) as [rs o].
      cbn [fst snd] in *. destruct IH as (Hs & Hr & Hp & Ht).
      change (emitted (Returned None :: rs)) with (emitted rs).
      repeat split; eauto.
    + specialize (IH c p_ h_ tb p w).
      destruct (invocations n (camera_stream_pose.recv mp) _) as [rs o].
      cbn [fst snd] in *. destruct IH as (Hs & Hr & Hp & Ht).
      change (emitted (Returned None :: rs)) with (emitted rs).
      repeat split; eauto.
Qed.

End pose_facts.

(** The same for [camera_stream_pose.py], whatever the detectors do. *)
Lemma pose_recvs_outcomes {PoseGraph HandsGraph : Type}
    (mp : mediapipe.Library PoseGraph HandsGraph) n :
  forall c p_ h_ tb p w k,
  cv2.opened c = true ->
  k < n ->
  let rs :=
    fst (invocations n (camera_stream_pose.recv mp)
           {| camera_stream_pose.self := camera_stream_pose.assigned c p_ h_ tb p;
              camera_stream_pose.world := w |}) in
  match cv2.read_result w (cv2.read_calls w + k) with
  | Some _ =>
      exists f,
        rs !! k = Some (Returned (Some f)) /\
        av.pts f = Some (p + Z.of_nat (length (cv2.frames_read w k)))%Z /\
        av.time_base f = Some tb
  | None => rs !! k = Some (Returned None)
  end.
Proof.
  induction n as [|n IH]; intros c p_ h_ tb p w k Hc Hk; [ lia | ].
  cbv zeta. cbn [invocations]. rewrite pose_recv_step, Hc.
  destruct k as [|k].
  - rewrite Nat.add_0_r.
    destruct (cv2.read_result w (cv2.read_calls w)) as [a|];
      destruct (invocations n (camera_stream_pose.recv mp) _) as [rs o]; cbn.
    + eexists. split; [ reflexivity | ]. cbn. by rewrite Z.add_0_r.
    + reflexivity.
  - destruct (cv2.read_result w (cv2.read_calls w)) as [a|] eqn:Ha.
    + match goal with
      | |- context [invocations n _ {| camera_stream_pose.self :=
               camera_stream_pose.assigned _ ?p1 ?h1 _ _;
               camera_stream_pose.world := ?w1 |}] =>
          pose proof (IH c p1 h1 tb (p + 1)%Z w1 k Hc ltac:(lia)) as IH1;
          rewrite (frames_read_step w w1 k) by done
      end.
      cbv zeta in IH1. rewrite Ha.
      replace (cv2.read_calls w + S k) with (S (cv2.read_calls w) + k) by lia.
      destruct (invocations n (camera_stream_pose.recv mp) _) as [rs o].
      cbn [fst snd lookup list_lookup] in *.
      cbn [cv2.read_result cv2.read_calls cv2.set_arrays cv2.count_read] in IH1.
      destruct (cv2.read_result w (S (cv2.read_calls w) + k)); [ | exact IH1 ].
      destruct IH1 as (f & Hf & Hp & Ht). exists f.
      split; [ exact Hf | split; [ | exact Ht ] ].
      rewrite Hp. f_equal. cbn [length]. lia.
    + pose proof (IH c p_ h_ tb p (cv2.count_read w) k Hc ltac:(lia)) as IH1.
      cbv zeta in IH1.
      rewrite (frames_read_step w (cv2.count_read w) k) by done.
      rewrite Ha.
      replace (cv2.read_calls w + S k) with (S (cv2.read_calls w) + k) by lia.
      destruct (invocations n (camera_stream_pose.recv mp) _) as [rs o].
      cbn [fst snd lookup list_lookup] in *.
      cbn [cv2.read_result cv2.read_calls cv2.count_read] in IH1.
      exact IH1.
Qed.

(** ** [recv]: the counter, the time base and failed reads *)

(** C2.  On a track that [__init__] constructed, in either program, and
    for any number of invocations of [recv] with reads failing wherever
    the device makes them fail: no invocation raises; an invocation whose
    read succeeds returns a frame, and the frame carries the number of
    reads that succeeded before it, while an invocation whose read fails
    returns [None]; so the frame delivered by the (i+1)-th successful
    invocation carries the counter value [i], and the track's own counter
    ends at the number of frames delivered. *)
Theorem recv_pts_counts_successful_invocations :
  (forall (w : cv2.World) (o : camera_stream.Obj) (n : nat),
     camera_stream.__init__
       {| camera_stream.self := camera_stream.blank;
          camera_stream.world := w |} = (Returned tt, o) ->
     let run_ := invocations n camera_stream.recv o in
     let w0 := camera_stream.world o in
     Forall (fun r => exists v, r = Returned v) (fst run_) /\
     (forall k : nat,
        k < n ->
        match cv2.read_result w0 (cv2.read_calls w0 + k) with
        | Some _ =>
            exists f : av.VideoFrame,
              fst run_ !! k = Some (Returned (Some f)) /\
              av.pts f = Some (Z.of_nat (length (cv2.frames_read w0 k)))
        | None => fst run_ !! k = Some (Returned None)
        end) /\
     (forall (i : nat) (f : av.VideoFrame),
        emitted (fst run_) !! i = Some f -> av.pts f = Some (Z.of_nat i)) /\
     camera_stream.pts (camera_stream.self (snd run_)) =
       Some (Z.of_nat (length (emitted (fst run_)))))
  /\
  (forall (PoseGraph HandsGraph : Type)
          (mp : mediapipe.Library PoseGraph HandsGraph)
          (w : cv2.World) (o : camera_stream_pose.Obj) (n : nat),
     camera_stream_pose.__init__ mp
       {| camera_stream_pose.self := camera_stream_pose.blank;
          camera_stream_pose.world := w |} = (Returned tt, o) ->
     let run_ := invocations n (camera_stream_pose.recv mp) o in
     let w0 := camera_stream_pose.world o in
     Forall (fun r => exists v, r = Returned v) (fst run_) /\
     (forall k : nat,
        k < n ->
        match cv2.read_result w0 (cv2.read_calls w0 + k) with
        | Some _ =>
            exists f : av.VideoFrame,
              fst run_ !! k = Some (Returned (Some f)) /\
              av.pts f = Some (Z.of_nat (length (cv2.frames_read w0 k)))
        | None => fst run_ !! k = Some (Returned None)
        end) /\
     (forall (i : nat) (f : av.VideoFrame),
        emitted (fst run_) !! i = Some f -> av.pts f = Some (Z.of_nat i)) /\
     camera_stream_pose.pts (camera_stream_pose.self (snd run_)) =
       Some (Z.of_nat (length (emitted (fst run_))))).
Proof.
  split.
  - intros w o n Hinit. rewrite plain_init_spec in Hinit.
    destruct (cv2.open_result w 0 (cv2.open_calls w)); [ | done ].
    injection Hinit as <-.
    destruct (plain_recvs_assigned n cv2.configured (QArith_base.Qmake 1 30) 0
                (cv2.count_open w)) as (Hs & Hr & Hp & _).
    cbv zeta. split; [ exact Hr | split; [ | split ] ].
    + intros k Hk.
      pose proof (plain_recvs_outcomes n cv2.configured (QArith_base.Qmake 1 30)
                    0 (cv2.count_open w) k eq_refl Hk) as Hout.
      cbv zeta in Hout. cbn [camera_stream.world].
      destruct (cv2.read_result (cv2.count_open w) _); [ | exact Hout ].
      destruct Hout as (f & Hf & Hpts & _). exists f. split; [ exact Hf | ].
      rewrite Hpts. f_equal.
    + intros i f Hi. by apply (pts_from_zero _ Hp).
    + by rewrite Hs.
  - intros PoseGraph HandsGraph mp w o n Hinit. rewrite pose_init_spec in Hinit.
    destruct (cv2.open_result w 0 (cv2.open_calls w)); [ | done ].
    destruct (mediapipe.new_Pose mp _ _) as [gp|]; [ | done ].
    destruct (mediapipe.new_Hands mp _ _) as [gh|]; [ | done ].
    injection Hinit as <-.
    destruct (pose_recvs_assigned mp n cv2.configured
                (mediapipe.fresh_solution gp) (mediapipe.fresh_solution gh)
                (QArith_base.Qmake 1 30) 0 (cv2.count_open w))
      as ((p1 & h1 & Hs & _) & Hr & Hp & _).
    cbv zeta. split; [ exact Hr | split; [ | split ] ].
    + intros k Hk.
      pose proof (pose_recvs_outcomes mp n cv2.configured
                    (mediapipe.fresh_solution gp) (mediapipe.fresh_solution gh)
                    (QArith_base.Qmake 1 30) 0 (cv2.count_open w) k eq_refl Hk)
        as Hout.
      cbv zeta in Hout. cbn [camera_stream_pose.world].
      destruct (cv2.read_result (cv2.count_open w) _); [ | exact Hout ].
      destruct Hout as (f & Hf & Hpts & _). exists f. split; [ exact Hf | ].
      rewrite Hpts. f_equal.
    + intros i f Hi. by apply (pts_from_zero _ Hp).
    + by rewrite Hs.
Qed.

Lemma recv_pts_counts_successful_invocations_witness :
  (camera_stream.__init__
     {| camera_stream.self := camera_stream.blank;
        camera_stream.world := sample.world |} = (Returned tt, sample.track) /\
   av.pts <$> emitted (fst (invocations 5 camera_stream.recv sample.track)) =
     [Some 0; Some 1; Some 2]%Z /\
   let run_ := invocations 5 camera_stream.recv sample.track in
   let w0 := camera_stream.world sample.track in
   Forall (fun r => exists v, r = Returned v) (fst run_) /\
   (forall k : nat,
      k < 5 ->
      match cv2.read_result w0 (cv2.read_calls w0 + k) with
      | Some _ =>
          exists f : av.VideoFrame,
            fst run_ !! k = Some (Returned (Some f)) /\
            av.pts f = Some (Z.of_nat (length (cv2.frames_read w0 k)))
      | None => fst run_ !! k = Some (Returned None)
      end) /\
   (forall (i : nat) (f : av.VideoFrame),
      emitted (fst run_) !! i = Some f -> av.pts f = Some (Z.of_nat i)) /\
   camera_stream.pts (camera_stream.self (snd run_)) =
     Some (Z.of_nat (length (emitted (fst run_)))))
  /\
  (camera_stream_pose.__init__ sample.library
     {| camera_stream_pose.self := camera_stream_pose.blank;
        camera_stream_pose.world := sample.world |} =
     (Returned tt, sample.pose_track) /\
   av.pts <$> emitted (fst (invocations 5 (camera_stream_pose.recv sample.library)
                              sample.pose_track)) =
     [Some 0; Some 1; Some 2]%Z /\
   let run_ :=
     invocations 5 (camera_stream_pose.recv sample.library) sample.pose_track in
   let w0 := camera_stream_pose.world sample.pose_track in
   Forall (fun r => exists v, r = Returned v) (fst run_) /\
   (forall k : nat,
      k < 5 ->
      match cv2.read_result w0 (cv2.read_calls w0 + k) with
      | Some _ =>
          exists f : av.VideoFrame,
            fst run_ !! k = Some (Returned (Some f)) /\
            av.pts f = Some (Z.of_nat (length (cv2.frames_read w0 k)))
      | None => fst run_ !! k = Some (Returned None)
      end) /\
   (forall (i : nat) (f : av.VideoFrame),
      emitted (fst run_) !! i = Some f -> av.pts f = Some (Z.of_nat i)) /\
   camera_stream_pose.pts (camera_stream_pose.self (snd run_)) =
     Some (Z.of_nat (length (emitted (fst run_))))).
Proof.
  assert (H1 : camera_stream.__init__
                 {| camera_stream.self := camera_stream.blank;
                    camera_stream.world := sample.world |} =
               (Returned tt, sample.track)) by (vm_compute; reflexivity).
  assert (H2 : camera_stream_pose.__init__ sample.library
                 {| camera_stream_pose.self := camera_stream_pose.blank;
                    camera_stream_pose.world := sample.world |} =
               (Returned tt, sample.pose_track)) by (vm_compute; reflexivity).
  split; (split; [ assumption | split; [ vm_compute; reflexivity | ] ]).
  - exact (proj1 recv_pts_counts_successful_invocations
             sample.world sample.track 5 H1).
  - exact (proj2 recv_pts_counts_successful_invocations
             nat nat sample.library sample.world sample.pose_track 5 H2).
Defined.

(** C7.  On a constructed track, in either program, an invocation of
    [recv] whose read succeeds returns a frame stamped with the time base
    1/30; every frame delivered carries that time base, and the track's
    own time base is still 1/30 after any number of invocations. *)
Theorem recv_time_base_is_one_thirtieth :
  (forall (w : cv2.World) (o : camera_stream.Obj) (n : nat),
     camera_stream.__init__
       {| camera_stream.self := camera_stream.blank;
          camera_stream.world := w |} = (Returned tt, o) ->
     let run_ := invocations n camera_stream.recv o in
     let w0 := camera_stream.world o in
     (forall (k : nat) (a : cv2.ndarray),
        k < n ->
        cv2.read_result w0 (cv2.read_calls w0 + k) = Some a ->
        exists f : av.VideoFrame,
          fst run_ !! k = Some (Returned (Some f)) /\
          av.time_base f = Some (QArith_base.Qmake 1 30)) /\
     (forall f : av.VideoFrame,
        f ∈ emitted (fst run_) -> av.time_base f = Some (QArith_base.Qmake 1 30)) /\
     camera_stream.time_base (camera_stream.self (snd run_)) =
       Some (QArith_base.Qmake 1 30))
  /\
  (forall (PoseGraph HandsGraph : Type)
          (mp : mediapipe.Library PoseGraph HandsGraph)
          (w : cv2.World) (o : camera_stream_pose.Obj) (n : nat),
     camera_stream_pose.__init__ mp
       {| camera_stream_pose.self := camera_stream_pose.blank;
          camera_stream_pose.world := w |} = (Returned tt, o) ->
     let run_ := invocations n (camera_stream_pose.recv mp) o in
     let w0 := camera_stream_pose.world o in
     (forall (k : nat) (a : cv2.ndarray),
        k < n ->
        cv2.read_result w0 (cv2.read_calls w0 + k) = Some a ->
        exists f : av.VideoFrame,
          fst run_ !! k = Some (Returned (Some f)) /\
          av.time_base f = Some (QArith_base.Qmake 1 30)) /\
     (forall f : av.VideoFrame,
        f ∈ emitted (fst run_) -> av.time_base f = Some (QArith_base.Qmake 1 30)) /\
     camera_stream_pose.time_base (camera_stream_pose.self (snd run_)) =
       Some (QArith_base.Qmake 1 30)).
Proof.
  split.
  - intros w o n Hinit. rewrite plain_init_spec in Hinit.
    destruct (cv2.open_result w 0 (cv2.open_calls w)); [ | done ].
    injection Hinit as <-.
    destruct (plain_recvs_assigned n cv2.configured (QArith_base.Qmake 1 30) 0
                (cv2.count_open w)) as (Hs & _ & _ & Ht).
    cbv zeta. split; [ | split ].
    + intros k a Hk Ha.
      pose proof (plain_recvs_outcomes n cv2.configured (QArith_base.Qmake 1 30)
                    0 (cv2.count_open w) k eq_refl Hk) as Hout.
      cbv zeta in Hout. cbn [camera_stream.world] in Ha. rewrite Ha in Hout.
      destruct Hout as (f & Hf & _ & Htb). by exists f.
    + intros f Hf. by apply (proj1 (Forall_forall _ _) Ht).
    + by rewrite Hs.
  - intros PoseGraph HandsGraph mp w o n Hinit. rewrite pose_init_spec in Hinit.
    destruct (cv2.open_result w 0 (cv2.open_calls w)); [ | done ].
    destruct (mediapipe.new_Pose mp _ _) as [gp|]; [ | done ].
    destruct (mediapipe.new_Hands mp _ _) as [gh|]; [ | done ].
    injection Hinit as <-.
    destruct (pose_recvs_assigned mp n cv2.configured
                (mediapipe.fresh_solution gp) (mediapipe.fresh_solution gh)
                (QArith_base.Qmake 1 30) 0 (cv2.count_open w))
      as ((p1 & h1 & Hs & _) & _ & _ & Ht).
    cbv zeta. split; [ | split ].
    + intros k a Hk Ha.
      pose proof (pose_recvs_outcomes mp n cv2.configured
                    (mediapipe.fresh_solution gp) (mediapipe.fresh_solution gh)
                    (QArith_base.Qmake 1 30) 0 (cv2.count_open w) k eq_refl Hk)
        as Hout.
      cbv zeta in Hout. cbn [camera_stream_pose.world] in Ha. rewrite Ha in Hout.
      destruct Hout as (f & Hf & _ & Htb). by exists f.
    + intros f Hf. by apply (proj1 (Forall_forall _ _) Ht).
    + by rewrite Hs.
Qed.

Lemma recv_time_base_is_one_thirtieth_witness :
  (camera_stream.__init__
     {| camera_stream.self := camera_stream.blank;
        camera_stream.world := sample.world |} = (Returned tt, sample.track) /\
   av.time_base <$> emitted (fst (invocations 5 camera_stream.recv sample.track)) =
     [Some (QArith_base.Qmake 1 30); Some (QArith_base.Qmake 1 30);
      Some (QArith_base.Qmake 1 30)] /\
   let run_ := invocations 5 camera_stream.recv sample.track in
   let w0 := camera_stream.world sample.track in
   (forall (k : nat) (a : cv2.ndarray),
      k < 5 ->
      cv2.read_result w0 (cv2.read_calls w0 + k) = Some a ->
      exists f : av.VideoFrame,
        fst run_ !! k = Some (Returned (Some f)) /\
        av.time_base f = Some (QArith_base.Qmake 1 30)) /\
   (forall f : av.VideoFrame,
      f ∈ emitted (fst run_) -> av.time_base f = Some (QArith_base.Qmake 1 30)) /\
   camera_stream.time_base (camera_stream.self (snd run_)) =
     Some (QArith_base.Qmake 1 30))
  /\
  (camera_stream_pose.__init__ sample.library
     {| camera_stream_pose.self := camera_stream_pose.blank;
        camera_stream_pose.world := sample.world |} =
     (Returned tt, sample.pose_track) /\
   av.time_base <$>
     emitted (fst (invocations 5 (camera_stream_pose.recv sample.library)
                     sample.pose_track)) =
     [Some (QArith_base.Qmake 1 30); Some (QArith_base.Qmake 1 30);
      Some (QArith_base.Qmake 1 30)] /\
   let run_ :=
     invocations 5 (camera_stream_pose.recv sample.library) sample.pose_track in
   let w0 := camera_stream_pose.world sample.pose_track in
   (forall (k : nat) (a : cv2.ndarray),
      k < 5 ->
      cv2.read_result w0 (cv2.read_calls w0 + k) = Some a ->
      exists f : av.VideoFrame,
        fst run_ !! k = Some (Returned (Some f)) /\
        av.time_base f = Some (QArith_base.Qmake 1 30)) /\
   (forall f : av.VideoFrame,
      f ∈ emitted (fst run_) -> av.time_base f = Some (QArith_base.Qmake 1 30)) /\
   camera_stream_pose.time_base (camera_stream_pose.self (snd run_)) =
     Some (QArith_base.Qmake 1 30)).
Proof.
  assert (H1 : camera_stream.__init__
                 {| camera_stream.self := camera_stream.blank;
                    camera_stream.world := sample.world |} =
               (Returned tt, sample.track)) by (vm_compute; reflexivity).
  assert (H2 : camera_stream_pose.__init__ sample.library
                 {| camera_stream_pose.self := camera_stream_pose.blank;
                    camera_stream_pose.world := sample.world |} =
               (Returned tt, sample.pose_track)) by (vm_compute; reflexivity).
  split; (split; [ assumption | split; [ vm_compute; reflexivity | ] ]).
  - exact (proj1 recv_time_base_is_one_thirtieth sample.world sample.track 5 H1).
  - exact (proj2 recv_time_base_is_one_thirtieth
             nat nat sample.library sample.world sample.pose_track 5 H2).
Defined.

(** C5.  When the device read fails ([ret] is false) on a track whose
    capture is assigned, [recv] returns [None] and does not raise, in
    either program; the track's attributes are as before, so the next
    invocation finds the track as this one did. *)
Theorem recv_failed_read_returns_None :
  (forall (o : camera_stream.Obj) (c : cv2.VideoCapture)
          (frame : option cv2.ref) (w' : cv2.World),
     camera_stream.cap (camera_stream.self o) = Some c ->
     cv2.read c (camera_stream.world o) = (Returned (false, frame), w') ->
     camera_stream.recv o =
       (Returned None,
        {| camera_stream.self := camera_stream.self o;
           camera_stream.world := w' |}))
  /\
  (forall (PoseGraph HandsGraph : Type)
          (mp : mediapipe.Library PoseGraph HandsGraph)
          (o : camera_stream_pose.Obj) (c : cv2.VideoCapture)
          (frame : option cv2.ref) (w' : cv2.World),
     camera_stream_pose.cap (camera_stream_pose.self o) = Some c ->
     cv2.read c (camera_stream_pose.world o) = (Returned (false, frame), w') ->
     camera_stream_pose.recv mp o =
       (Returned None,
        {| camera_stream_pose.self := camera_stream_pose.self o;
           camera_stream_pose.world := w' |})).
Proof.
  split.
  - intros o c frame w' Hc Hread. unfold camera_stream.recv.
    erewrite bind_returned; cycle 1.
    { unfold camera_stream.getattr. rewrite Hc. reflexivity. }
    erewrite bind_returned; [ | apply in_world_spec; exact Hread ].
    reflexivity.
  - intros PoseGraph HandsGraph mp o c frame w' Hc Hread.
    unfold camera_stream_pose.recv.
    erewrite bind_returned; cycle 1.
    { unfold camera_stream_pose.getattr. rewrite Hc. reflexivity. }
    erewrite bind_returned; [ | apply in_world_spec; exact Hread ].
    reflexivity.
Qed.

Lemma recv_failed_read_returns_None_witness :
  (let o := snd (camera_stream.recv sample.track) in
   camera_stream.recv o =
     (Returned None,
      {| camera_stream.self := camera_stream.self o;
         camera_stream.world := cv2.count_read (camera_stream.world o) |}))
  /\
  (let o := snd (camera_stream_pose.recv sample.library sample.pose_track) in
   camera_stream_pose.recv sample.library o =
     (Returned None,
      {| camera_stream_pose.self := camera_stream_pose.self o;
         camera_stream_pose.world := cv2.count_read (camera_stream_pose.world o) |})).
Proof.
  split; cbv zeta.
  - apply (proj1 recv_failed_read_returns_None _ cv2.configured None);
      vm_compute; reflexivity.
  - apply (proj2 recv_failed_read_returns_None nat nat sample.library _
             cv2.configured None);
      vm_compute; reflexivity.
Defined.

(** ** Teardown *)

(** [__del__] never raises; it releases the capture if the attribute is
    there and touches nothing else. *)
Lemma plain_del_spec (o : camera_stream.Obj) :
  camera_stream.__del__ o =
  (Returned tt,
   {| camera_stream.self :=
        {| camera_stream.cap := cv2.release <$> camera_stream.cap (camera_stream.self o);
           camera_stream.time_base := camera_stream.time_base (camera_stream.self o);
           camera_stream.pts := camera_stream.pts (camera_stream.self o) |};
      camera_stream.world := camera_stream.world o |}).
Proof. by destruct o as [[[c|] tb p] w]. Qed.

Lemma pose_del_spec {PoseGraph HandsGraph : Type}
    (o : @camera_stream_pose.Obj PoseGraph HandsGraph) :
  camera_stream_pose.__del__ o =
  (Returned tt,
   {| camera_stream_pose.self :=
        {| camera_stream_pose.cap :=
             cv2.release <$> camera_stream_pose.cap (camera_stream_pose.self o);
           camera_stream_pose.mp_drawing :=
             camera_stream_pose.mp_drawing (camera_stream_pose.self o);
           camera_stream_pose.mp_pose :=
             camera_stream_pose.mp_pose (camera_stream_pose.self o);
           camera_stream_pose.mp_hands :=
             camera_stream_pose.mp_hands (camera_stream_pose.self o);
           camera_stream_pose.pose :=
             mediapipe.close <$> camera_stream_pose.pose (camera_stream_pose.self o);
           camera_stream_pose.hands :=
             mediapipe.close <$> camera_stream_pose.hands (camera_stream_pose.self o);
           camera_stream_pose.time_base :=
             camera_stream_pose.time_base (camera_stream_pose.self o);
           camera_stream_pose.pts :=
             camera_stream_pose.pts (camera_stream_pose.self o) |};
      camera_stream_pose.world := camera_stream_pose.world o |}).
Proof. by destruct o as [[[c|] d mp_ mh [p_|] [h_|] tb p] w]. Qed.

(** C9.  One run of [__del__], on an object in any state of construction
    (any attribute assigned or missing), returns without raising and adds
    exactly one [release()] to the capture and one [close()] to each
    detector that is there, leaving a missing attribute missing.  Hence
    after a construction in any world, failed or not, the capture has been
    released exactly once and each detector that was created closed exactly
    once; and so it is after a successful construction followed by any
    number of [recv] invocations, none included. *)
Theorem del_releases_each_handle_exactly_once :
  (* camera_stream.py *)
  ((forall o : camera_stream.Obj,
      fst (camera_stream.__del__ o) = Returned tt /\
      cv2.release_calls <$> camera_stream.cap (camera_stream.self (snd (camera_stream.__del__ o))) =
        (fun c => S (cv2.release_calls c)) <$> camera_stream.cap (camera_stream.self o)) /\
   (forall w : cv2.World,
      let o := snd (camera_stream.__init__
                      {| camera_stream.self := camera_stream.blank;
                         camera_stream.world := w |}) in
      fst (camera_stream.__del__ o) = Returned tt /\
      cv2.release_calls <$> camera_stream.cap (camera_stream.self (snd (camera_stream.__del__ o))) =
        Some 1) /\
   (forall (w : cv2.World) (o : camera_stream.Obj) (n : nat),
      camera_stream.__init__
        {| camera_stream.self := camera_stream.blank;
           camera_stream.world := w |} = (Returned tt, o) ->
      let o1 := snd (invocations n camera_stream.recv o) in
      fst (camera_stream.__del__ o1) = Returned tt /\
      cv2.release_calls <$> camera_stream.cap (camera_stream.self (snd (camera_stream.__del__ o1))) =
        Some 1))
  /\
  (* camera_stream_pose.py *)
  (forall (PoseGraph HandsGraph : Type)
          (mp : mediapipe.Library PoseGraph HandsGraph),
   (forall o : @camera_stream_pose.Obj PoseGraph HandsGraph,
      let t := camera_stream_pose.self o in
      let t1 := camera_stream_pose.self (snd (camera_stream_pose.__del__ o)) in
      fst (camera_stream_pose.__del__ o) = Returned tt /\
      cv2.release_calls <$> camera_stream_pose.cap t1 =
        (fun c => S (cv2.release_calls c)) <$> camera_stream_pose.cap t /\
      mediapipe.close_calls <$> camera_stream_pose.pose t1 =
        (fun d => S (mediapipe.close_calls d)) <$> camera_stream_pose.pose t /\
      mediapipe.close_calls <$> camera_stream_pose.hands t1 =
        (fun d => S (mediapipe.close_calls d)) <$> camera_stream_pose.hands t) /\
   (forall w : cv2.World,
      let o := snd (camera_stream_pose.__init__ mp
                      {| camera_stream_pose.self := camera_stream_pose.blank;
                         camera_stream_pose.world := w |}) in
      let t := camera_stream_pose.self o in
      let t1 := camera_stream_pose.self (snd (camera_stream_pose.__del__ o)) in
      fst (camera_stream_pose.__del__ o) = Returned tt /\
      cv2.release_calls <$> camera_stream_pose.cap t1 = Some 1 /\
      mediapipe.close_calls <$> camera_stream_pose.pose t1 =
        (fun _ => 1) <$> camera_stream_pose.pose t /\
      mediapipe.close_calls <$> camera_stream_pose.hands t1 =
        (fun _ => 1) <$> camera_stream_pose.hands t) /\
   (forall (w : cv2.World) (o : camera_stream_pose.Obj) (n : nat),
      camera_stream_pose.__init__ mp
        {| camera_stream_pose.self := camera_stream_pose.blank;
           camera_stream_pose.world := w |} = (Returned tt, o) ->
      let o1 := snd (invocations n (camera_stream_pose.recv mp) o) in
      let t1 := camera_stream_pose.self (snd (camera_stream_pose.__del__ o1)) in
      fst (camera_stream_pose.__del__ o1) = Returned tt /\
      cv2.release_calls <$> camera_stream_pose.cap t1 = Some 1 /\
      mediapipe.close_calls <$> camera_stream_pose.pose t1 = Some 1 /\
      mediapipe.close_calls <$> camera_stream_pose.hands t1 = Some 1)).
Proof.
  split; [ split; [ | split ] | intros PoseGraph HandsGraph mp; split; [ | split ] ].
  - intros o. rewrite plain_del_spec. simpl. split; [ done | ].
    by destruct (camera_stream.cap (camera_stream.self o)).
  - intros w. cbv zeta. rewrite plain_del_spec, plain_init_spec.
    by destruct (cv2.open_result w 0 (cv2.open_calls w)).
  - intros w o n Hinit. cbv zeta. rewrite plain_del_spec.
    rewrite plain_init_spec in Hinit.
    destruct (cv2.open_result w 0 (cv2.open_calls w)); [ | done ].
    injection Hinit as <-.
    destruct (plain_recvs_assigned n cv2.configured (QArith_base.Qmake 1 30) 0
                (cv2.count_open w)) as (Hs & _).
    simpl. by rewrite Hs.
  - intros o. cbv zeta. rewrite pose_del_spec. simpl. split; [ done | ].
    destruct (camera_stream_pose.cap _), (camera_stream_pose.pose _),
      (camera_stream_pose.hands _); done.
  - intros w. cbv zeta. rewrite pose_del_spec, pose_init_spec.
    destruct (cv2.open_result w 0 (cv2.open_calls w)); [ | done ].
    destruct (mediapipe.new_Pose mp _ _); [ | done ].
    by destruct (mediapipe.new_Hands mp _ _).
  - intros w o n Hinit. cbv zeta. rewrite pose_del_spec.
    rewrite pose_init_spec in Hinit.
    destruct (cv2.open_result w 0 (cv2.open_calls w)); [ | done ].
    destruct (mediapipe.new_Pose mp _ _) as [gp|]; [ | done ].
    destruct (mediapipe.new_Hands mp _ _) as [gh|]; [ | done ].
    injection Hinit as <-.
    destruct (pose_recvs_assigned mp n cv2.configured
                (mediapipe.fresh_solution gp) (mediapipe.fresh_solution gh)
                (QArith_base.Qmake 1 30) 0 (cv2.count_open w))
      as ((p1 & h1 & Hs & Hp & Hh) & _).
    simpl. rewrite Hs. simpl. by rewrite Hp, Hh.
Qed.

Lemma del_releases_each_handle_exactly_once_witness :
  (camera_stream.__init__
     {| camera_stream.self := camera_stream.blank;
        camera_stream.world := sample.world |} = (Returned tt, sample.track) /\
   let o1 := snd (invocations 5 camera_stream.recv sample.track) in
   fst (camera_stream.__del__ o1) = Returned tt /\
   cv2.release_calls <$> camera_stream.cap (camera_stream.self (snd (camera_stream.__del__ o1))) =
     Some 1)
  /\
  (camera_stream_pose.__init__ sample.library
     {| camera_stream_pose.self := camera_stream_pose.blank;
        camera_stream_pose.world := sample.world |} =
     (Returned tt, sample.pose_track) /\
   let o1 := snd (invocations 5 (camera_stream_pose.recv sample.library)
                    sample.pose_track) in
   let t1 := camera_stream_pose.self (snd (camera_stream_pose.__del__ o1)) in
   fst (camera_stream_pose.__del__ o1) = Returned tt /\
   cv2.release_calls <$> camera_stream_pose.cap t1 = Some 1 /\
   mediapipe.close_calls <$> camera_stream_pose.pose t1 = Some 1 /\
   mediapipe.close_calls <$> camera_stream_pose.hands t1 = Some 1).
Proof.
  assert (H1 : camera_stream.__init__
                 {| camera_stream.self := camera_stream.blank;
                    camera_stream.world := sample.world |} =
               (Returned tt, sample.track)) by (vm_compute; reflexivity).
  assert (H2 : camera_stream_pose.__init__ sample.library
                 {| camera_stream_pose.self := camera_stream_pose.blank;
                    camera_stream_pose.world := sample.world |} =
               (Returned tt, sample.pose_track)) by (vm_compute; reflexivity).
  split; (split; [ assumption | ]).
  - exact (proj2 (proj2 (proj1 del_releases_each_handle_exactly_once))
             sample.world sample.track 5 H1).
  - exact (proj2 (proj2 (proj2 del_releases_each_handle_exactly_once
                           nat nat sample.library))
             sample.world sample.pose_track 5 H2).
Defined.

(** ** The annotator *)

(** C4.  On a frame that holds the picture [a], with every attribute of the
    track assigned, [process_frame] returns the array object it was given;
    when neither detector finds anything in the RGB copy of [a], that
    object still holds [a]; when only a pose is found it holds [a] under
    the pose overlay alone, and when only hands are found it holds [a]
    under the overlays of these hands alone. *)
Theorem process_frame_overlays_follow_detections :
  forall (PoseGraph HandsGraph : Type)
         (mp : mediapipe.Library PoseGraph HandsGraph)
         (c : cv2.VideoCapture)
         (p_ : mediapipe.Solution PoseGraph) (h_ : mediapipe.Solution HandsGraph)
         (tb : QArith_base.Q) (p : Z) (w : cv2.World)
         (r : cv2.ref) (a : cv2.ndarray),
    cv2.arrays w !! r = Some a ->
    let found_pose :=
      fst (mediapipe.Pose_process mp (mediapipe.graph p_) (cv2.bgr2rgb a)) in
    let found_hands :=
      fst (mediapipe.Hands_process mp (mediapipe.graph h_) (cv2.bgr2rgb a)) in
    let out :=
      camera_stream_pose.process_frame mp (Some r)
        {| camera_stream_pose.self := camera_stream_pose.assigned c p_ h_ tb p;
           camera_stream_pose.world := w |} in
    let picture := cv2.arrays (camera_stream_pose.world (snd out)) !! r in
    fst out = Returned (Some r) /\
    (found_pose = None -> found_hands = None \/ found_hands = Some [] ->
     picture = Some a) /\
    (forall landmarks,
       found_pose = Some landmarks ->
       found_hands = None \/ found_hands = Some [] ->
       picture = Some (camera_stream_pose.pose_overlay mp a landmarks)) /\
    (forall hands,
       found_pose = None -> found_hands = Some hands ->
       picture = Some (fold_left (camera_stream_pose.hand_overlay mp) hands a)).
Proof.
  intros PoseGraph HandsGraph mp c p_ h_ tb p w r a Hr. cbv zeta.
  rewrite (process_frame_spec mp c p_ h_ tb p w r a Hr). cbn [fst snd].
  assert (Hpic : forall x,
    cv2.arrays (cv2.set_arrays (<[r := x]> (cv2.arrays w ++ [cv2.bgr2rgb a])) w) !! r
    = Some x).
  { intros x. simpl. apply list_lookup_insert_eq. rewrite length_app.
    apply lookup_lt_Some in Hr. lia. }
  cbn [camera_stream_pose.world]. rewrite Hpic.
  unfold camera_stream_pose.annotated.
  split; [ done | split; [ | split ] ].
  - by intros -> [-> | ->].
  - by intros l -> [-> | ->].
  - by intros hs -> ->.
Qed.

Lemma process_frame_overlays_follow_detections_witness :
  (let out :=
     camera_stream_pose.process_frame sample.library (Some 0)
       {| camera_stream_pose.self := camera_stream_pose.self sample.pose_track;
          camera_stream_pose.world := cv2.set_arrays [sample.plain_image] sample.world |} in
   fst out = Returned (Some 0) /\
   cv2.arrays (camera_stream_pose.world (snd out)) !! 0 = Some sample.plain_image)
  /\
  (let out :=
     camera_stream_pose.process_frame sample.library (Some 0)
       {| camera_stream_pose.self := camera_stream_pose.self sample.pose_track;
          camera_stream_pose.world := cv2.set_arrays [sample.pose_image] sample.world |} in
   cv2.arrays (camera_stream_pose.world (snd out)) !! 0 =
     Some (camera_stream_pose.pose_overlay sample.library sample.pose_image
             sample.a_landmark_list))
  /\
  (let out :=
     camera_stream_pose.process_frame sample.library (Some 0)
       {| camera_stream_pose.self := camera_stream_pose.self sample.pose_track;
          camera_stream_pose.world := cv2.set_arrays [sample.hands_image] sample.world |} in
   cv2.arrays (camera_stream_pose.world (snd out)) !! 0 =
     Some (fold_left (camera_stream_pose.hand_overlay sample.library)
             [sample.a_landmark_list; sample.a_landmark_list] sample.hands_image)).
Proof.
  split; [ | split ].
  - pose proof (process_frame_overlays_follow_detections nat nat sample.library
                  cv2.configured (mediapipe.fresh_solution 0)
                  (mediapipe.fresh_solution 0) (QArith_base.Qmake 1 30) 0
                  (cv2.set_arrays [sample.plain_image] sample.world) 0
                  sample.plain_image eq_refl) as (H1 & H2 & _).
    split; [ exact H1 | ]. apply H2; [ | left ]; vm_compute; reflexivity.
  - pose proof (process_frame_overlays_follow_detections nat nat sample.library
                  cv2.configured (mediapipe.fresh_solution 0)
                  (mediapipe.fresh_solution 0) (QArith_base.Qmake 1 30) 0
                  (cv2.set_arrays [sample.pose_image] sample.world) 0
                  sample.pose_image eq_refl) as (_ & _ & H3 & _).
    apply H3; [ | left ]; vm_compute; reflexivity.
  - pose proof (process_frame_overlays_follow_detections nat nat sample.library
                  cv2.configured (mediapipe.fresh_solution 0)
                  (mediapipe.fresh_solution 0) (QArith_base.Qmake 1 30) 0
                  (cv2.set_arrays [sample.hands_image] sample.world) 0
                  sample.hands_image eq_refl) as (_ & _ & _ & H4).
    apply H4; vm_compute; reflexivity.
Defined.

(** C10.  In [process_frame], each detector processes exactly one image, the
    RGB copy of the picture the frame held on entry, whatever
    [draw_landmarks] paints on the frame in between; so two runs, with any
    two drawing routines, on frames whose pictures have the same RGB copy
    and on detectors in the same state leave both detectors in the same
    state with the same images processed. *)
Theorem detectors_see_the_rgb_copy_of_the_raw_frame :
  (forall (PoseGraph HandsGraph : Type)
          (mp : mediapipe.Library PoseGraph HandsGraph)
          (c : cv2.VideoCapture)
          (p_ : mediapipe.Solution PoseGraph) (h_ : mediapipe.Solution HandsGraph)
          (tb : QArith_base.Q) (p : Z) (w : cv2.World)
          (r : cv2.ref) (a : cv2.ndarray),
     cv2.arrays w !! r = Some a ->
     let t1 :=
       camera_stream_pose.self
         (snd (camera_stream_pose.process_frame mp (Some r)
                 {| camera_stream_pose.self := camera_stream_pose.assigned c p_ h_ tb p;
                    camera_stream_pose.world := w |})) in
     camera_stream_pose.pose t1 =
       Some (mediapipe.after_process p_ (cv2.bgr2rgb a)
               (snd (mediapipe.Pose_process mp (mediapipe.graph p_) (cv2.bgr2rgb a)))) /\
     camera_stream_pose.hands t1 =
       Some (mediapipe.after_process h_ (cv2.bgr2rgb a)
               (snd (mediapipe.Hands_process mp (mediapipe.graph h_) (cv2.bgr2rgb a)))))
  /\
  (forall (PoseGraph HandsGraph : Type)
          (mp1 mp2 : mediapipe.Library PoseGraph HandsGraph)
          (c1 c2 : cv2.VideoCapture)
          (p_ : mediapipe.Solution PoseGraph) (h_ : mediapipe.Solution HandsGraph)
          (tb1 tb2 : QArith_base.Q) (p1 p2 : Z) (w1 w2 : cv2.World)
          (r1 r2 : cv2.ref) (a1 a2 : cv2.ndarray),
     mediapipe.Pose_process mp1 = mediapipe.Pose_process mp2 ->
     mediapipe.Hands_process mp1 = mediapipe.Hands_process mp2 ->
     cv2.arrays w1 !! r1 = Some a1 ->
     cv2.arrays w2 !! r2 = Some a2 ->
     cv2.bgr2rgb a1 = cv2.bgr2rgb a2 ->
     let t1 :=
       camera_stream_pose.self
         (snd (camera_stream_pose.process_frame mp1 (Some r1)
                 {| camera_stream_pose.self := camera_stream_pose.assigned c1 p_ h_ tb1 p1;
                    camera_stream_pose.world := w1 |})) in
     let t2 :=
       camera_stream_pose.self
         (snd (camera_stream_pose.process_frame mp2 (Some r2)
                 {| camera_stream_pose.self := camera_stream_pose.assigned c2 p_ h_ tb2 p2;
                    camera_stream_pose.world := w2 |})) in
     camera_stream_pose.pose t1 = camera_stream_pose.pose t2 /\
     camera_stream_pose.hands t1 = camera_stream_pose.hands t2).
Proof.
  split.
  - intros PoseGraph HandsGraph mp c p_ h_ tb p w r a Hr. cbv zeta.
    by rewrite (process_frame_spec mp c p_ h_ tb p w r a Hr).
  - intros PoseGraph HandsGraph mp1 mp2 c1 c2 p_ h_ tb1 tb2 p1 p2 w1 w2
      r1 r2 a1 a2 HP HH Hr1 Hr2 Hrgb. cbv zeta.
    rewrite (process_frame_spec mp1 c1 p_ h_ tb1 p1 w1 r1 a1 Hr1).
    rewrite (process_frame_spec mp2 c2 p_ h_ tb2 p2 w2 r2 a2 Hr2).
    simpl. by rewrite HP, HH, Hrgb.
Qed.

Lemma detectors_see_the_rgb_copy_of_the_raw_frame_witness :
  let run_ (mp : mediapipe.Library nat nat) :=
    camera_stream_pose.self
      (snd (camera_stream_pose.process_frame mp (Some 0)
              {| camera_stream_pose.self := camera_stream_pose.self sample.pose_track;
                 camera_stream_pose.world :=
                   cv2.set_arrays [sample.pose_image] sample.world |})) in
  camera_stream_pose.pose (run_ sample.library) =
    camera_stream_pose.pose (run_ sample.blanking_library) /\
  camera_stream_pose.hands (run_ sample.library) =
    camera_stream_pose.hands (run_ sample.blanking_library).
Proof.
  exact (proj2 detectors_see_the_rgb_copy_of_the_raw_frame nat nat
           sample.library sample.blanking_library
           cv2.configured cv2.configured
           (mediapipe.fresh_solution 0) (mediapipe.fresh_solution 0)
           (QArith_base.Qmake 1 30) (QArith_base.Qmake 1 30) 0%Z 0%Z
           (cv2.set_arrays [sample.pose_image] sample.world)
           (cv2.set_arrays [sample.pose_image] sample.world)
           0 0 sample.pose_image sample.pose_image
           eq_refl eq_refl eq_refl eq_refl eq_refl).
Defined.

(** ** The signaling handler *)

(** The statements of [offer] before its [try] block, for a request whose
    body decodes to a session description. *)
Lemma offer_prologue {Track A : Type} (s : signaling.Server Track)
    (request : web.Request) (v x y : json) (d : aiortc.RTCSessionDescription)
    (k : aiortc.RTCSessionDescription -> nat -> M (signaling.Server Track) A) :
  web.body request = Some v ->
  getitem v "sdp" = Returned x ->
  getitem v "type" = Returned y ->
  aiortc.new_RTCSessionDescription x y = Returned d ->
  (params <- lift_result (web.request_json request) ;;
   sdp_ <- lift_result (getitem params "sdp") ;;
   type_ <- lift_result (getitem params "type") ;;
   offer <- lift_result (aiortc.new_RTCSessionDescription sdp_ type_) ;;
   pc <- signaling.new_RTCPeerConnection ;;
   signaling.set_pcs (fun live => {[ pc ]} ∪ live) ;;
   signaling.pc_on pc "connectionstatechange" ;;
   k offer pc) s = k d (length (signaling.conns s)) (signaling.entered s).
Proof.
  intros Hb Hx Hy Hd.
  erewrite bind_returned; cycle 1.
  { unfold lift_result, web.request_json. rewrite Hb. reflexivity. }
  erewrite bind_returned; [ | unfold lift_result; rewrite Hx; reflexivity ].
  erewrite bind_returned; [ | unfold lift_result; rewrite Hy; reflexivity ].
  erewrite bind_returned; [ | unfold lift_result; rewrite Hd; reflexivity ].
  do 2 run.
  erewrite bind_returned; cycle 1.
  { unfold signaling.pc_on, signaling.update_conn, modify. simpl.
    rewrite lookup_fresh. rewrite insert_app_r_alt by done.
    rewrite Nat.sub_diag. reflexivity. }
  reflexivity.
Qed.

(** The class call fails exactly when the device does not open, after one
    attempt to open it. *)
Lemma plain_new_track_spec w :
  camera_stream.new_VideoTransformTrack w =
  if cv2.open_result w 0 (cv2.open_calls w) then
    (Returned (camera_stream.assigned cv2.configured (QArith_base.Qmake 1 30) 0),
     cv2.count_open w)
  else
    (Raised (mkExc RuntimeError "No se pudo abrir la cámara"), cv2.count_open w).
Proof.
  unfold camera_stream.new_VideoTransformTrack. rewrite plain_init_spec.
  by destruct (cv2.open_result w 0 (cv2.open_calls w)).
Qed.

Lemma pose_new_track_unopened {PoseGraph HandsGraph : Type}
    (mp : mediapipe.Library PoseGraph HandsGraph) w :
  cv2.open_result w 0 (cv2.open_calls w) = false ->
  camera_stream_pose.new_VideoTransformTrack mp w =
  (Raised (mkExc RuntimeError "No se pudo abrir la cámara"), cv2.count_open w).
Proof.
  intros E. unfold camera_stream_pose.new_VideoTransformTrack.
  rewrite pose_init_spec. by rewrite E.
Qed.

(** A request whose track cannot be constructed is answered from the
    [except] clause, with the text of the exception. *)
Lemma offer_track_construction_fails {Track : Type}
    (new_track : M cv2.World Track) (rtc : aiortc.Negotiation)
    (request : web.Request) (s : signaling.Server Track)
    (v x y : json) (d : aiortc.RTCSessionDescription) (e : PyExc) (w' : cv2.World) :
  web.body request = Some v ->
  getitem v "sdp" = Returned x ->
  getitem v "type" = Returned y ->
  aiortc.new_RTCSessionDescription x y = Returned d ->
  new_track (signaling.world s) = (Raised e, w') ->
  is_Exception (exc_class e) = true ->
  signaling.offer new_track rtc request s =
  (Returned {| web.status := 500; web.content_type := "text/plain";
               web.payload := web.Text (str e) |},
   with_world w' (signaling.entered s)).
Proof.
  intros Hb Hx Hy Hd Hnew He. unfold signaling.offer.
  erewrite offer_prologue by eassumption.
  unfold try_except.
  erewrite bind_raised; [ | apply in_world_spec; exact Hnew ].
  by rewrite He.
Qed.

(** C8.  In either program: when the device does not open, the class call
    [VideoTransformTrack()] raises [RuntimeError] after that one attempt
    and yields no object, and a request that got as far as constructing
    the track is answered with status 500 and the text of the exception;
    when the device opens, [__init__] leaves a capture that is open and
    was asked for width 640, height 480 and 30 frames per second. *)
Theorem camera_open_failure_fails_the_request :
  (* camera_stream.py *)
  ((forall w : cv2.World,
      cv2.open_result w 0 (cv2.open_calls w) = false ->
      camera_stream.new_VideoTransformTrack w =
        (Raised (mkExc RuntimeError "No se pudo abrir la cámara"),
         cv2.count_open w)) /\
   (forall (rtc : aiortc.Negotiation) (request : web.Request)
           (s : camera_stream.Server) (v x y : json)
           (d : aiortc.RTCSessionDescription),
      web.body request = Some v ->
      getitem v "sdp" = Returned x ->
      getitem v "type" = Returned y ->
      aiortc.new_RTCSessionDescription x y = Returned d ->
      cv2.open_result (signaling.world s) 0 (cv2.open_calls (signaling.world s)) = false ->
      fst (camera_stream.offer rtc request s) =
        Returned {| web.status := 500; web.content_type := "text/plain";
                    web.payload := web.Text "No se pudo abrir la cámara" |}) /\
   (forall w : cv2.World,
      cv2.open_result w 0 (cv2.open_calls w) = true ->
      camera_stream.cap
        (camera_stream.self
           (snd (camera_stream.__init__
                   {| camera_stream.self := camera_stream.blank;
                      camera_stream.world := w |}))) =
        Some {| cv2.opened := true; cv2.frame_width := Some 640%Z;
                cv2.frame_height := Some 480%Z; cv2.fps := Some 30%Z;
                cv2.release_calls := 0 |}))
  /\
  (* camera_stream_pose.py *)
  (forall (PoseGraph HandsGraph : Type)
          (mp : mediapipe.Library PoseGraph HandsGraph),
   (forall w : cv2.World,
      cv2.open_result w 0 (cv2.open_calls w) = false ->
      camera_stream_pose.new_VideoTransformTrack mp w =
        (Raised (mkExc RuntimeError "No se pudo abrir la cámara"),
         cv2.count_open w)) /\
   (forall (rtc : aiortc.Negotiation) (request : web.Request)
           (s : camera_stream_pose.Server) (v x y : json)
           (d : aiortc.RTCSessionDescription),
      web.body request = Some v ->
      getitem v "sdp" = Returned x ->
      getitem v "type" = Returned y ->
      aiortc.new_RTCSessionDescription x y = Returned d ->
      cv2.open_result (signaling.world s) 0 (cv2.open_calls (signaling.world s)) = false ->
      fst (camera_stream_pose.offer mp rtc request s) =
        Returned {| web.status := 500; web.content_type := "text/plain";
                    web.payload := web.Text "No se pudo abrir la cámara" |}) /\
   (forall w : cv2.World,
      cv2.open_result w 0 (cv2.open_calls w) = true ->
      camera_stream_pose.cap
        (camera_stream_pose.self
           (snd (camera_stream_pose.__init__ mp
                   {| camera_stream_pose.self := camera_stream_pose.blank;
                      camera_stream_pose.world := w |}))) =
        Some {| cv2.opened := true; cv2.frame_width := Some 640%Z;
                cv2.frame_height := Some 480%Z; cv2.fps := Some 30%Z;
                cv2.release_calls := 0 |})).
Proof.
  split; [ split; [ | split ] | intros PoseGraph HandsGraph mp; split; [ | split ] ].
  - intros w E. rewrite plain_new_track_spec. by rewrite E.
  - intros rtc request s v x y d Hb Hx Hy Hd E. unfold camera_stream.offer.
    erewrite offer_track_construction_fails; try eassumption; cycle 1.
    { rewrite plain_new_track_spec. by rewrite E. }
    { done. }
    done.
  - intros w E. rewrite plain_init_spec. by rewrite E.
  - intros w E. by apply pose_new_track_unopened.
  - intros rtc request s v x y d Hb Hx Hy Hd E. unfold camera_stream_pose.offer.
    erewrite offer_track_construction_fails; try eassumption; cycle 1.
    { by apply pose_new_track_unopened. }
    { done. }
    done.
  - intros w E. rewrite pose_init_spec. rewrite E.
    destruct (mediapipe.new_Pose mp _ _); [ | done ].
    by destruct (mediapipe.new_Hands mp _ _).
Qed.

Lemma camera_open_failure_fails_the_request_witness :
  (camera_stream.new_VideoTransformTrack sample.no_camera =
     (Raised (mkExc RuntimeError "No se pudo abrir la cámara"),
      cv2.count_open sample.no_camera) /\
   fst (camera_stream.offer sample.negotiation sample.request
          (sample.server sample.no_camera)) =
     Returned {| web.status := 500; web.content_type := "text/plain";
                 web.payload := web.Text "No se pudo abrir la cámara" |} /\
   camera_stream.cap
     (camera_stream.self
        (snd (camera_stream.__init__
                {| camera_stream.self := camera_stream.blank;
                   camera_stream.world := sample.world |}))) =
     Some cv2.configured)
  /\
  (camera_stream_pose.new_VideoTransformTrack sample.library sample.no_camera =
     (Raised (mkExc RuntimeError "No se pudo abrir la cámara"),
      cv2.count_open sample.no_camera) /\
   fst (camera_stream_pose.offer sample.library sample.negotiation sample.request
          (sample.server sample.no_camera)) =
     Returned {| web.status := 500; web.content_type := "text/plain";
                 web.payload := web.Text "No se pudo abrir la cámara" |} /\
   camera_stream_pose.cap
     (camera_stream_pose.self
        (snd (camera_stream_pose.__init__ sample.library
                {| camera_stream_pose.self := camera_stream_pose.blank;
                   camera_stream_pose.world := sample.world |}))) =
     Some cv2.configured).
Proof.
  destruct camera_open_failure_fails_the_request as [(A1 & A2 & A3) B].
  destruct (B nat nat sample.library) as (B1 & B2 & B3).
  split; (split; [ | split ]).
  - apply A1. reflexivity.
  - apply (A2 _ _ _ (JObject [("sdp", JString "v=0"); ("type", JString "offer")])
             (JString "v=0") (JString "offer") sample.an_offer);
      vm_compute; reflexivity.
  - apply A3. reflexivity.
  - apply B1. reflexivity.
  - apply (B2 _ _ _ (JObject [("sdp", JString "v=0"); ("type", JString "offer")])
             (JString "v=0") (JString "offer") sample.an_offer);
      vm_compute; reflexivity.
  - apply B3. reflexivity.
Defined.

(** X13.  A request whose body is not JSON, is JSON but not an object, or is
    an object without the member [sdp] or without the member [type], makes
    [offer] raise an exception of class [Exception] before it creates a
    connection: the process state, [pcs] included, is as before, and
    aiohttp answers the request with status 500.  This holds for the track
    class of either program. *)
Theorem offer_rejects_body_without_sdp_or_type :
  forall (Track : Type) (new_track : M cv2.World Track)
         (rtc : aiortc.Negotiation) (request : web.Request)
         (s : signaling.Server Track),
    match web.body request with
    | Some (JObject members) =>
        dict_get members "sdp" = None \/ dict_get members "type" = None
    | _ => True
    end ->
    (exists e : PyExc,
       is_Exception (exc_class e) = true /\
       signaling.offer new_track rtc request s = (Raised e, s)) /\
    web.handle_request (signaling.offer new_track rtc request) s =
      (Returned {| web.status := 500; web.content_type := "text/plain";
                   web.payload := web.ErrorPage |}, s).
Proof.
  intros Track new_track rtc request s Hbad.
  assert (H : exists e : PyExc,
            is_Exception (exc_class e) = true /\
            signaling.offer new_track rtc request s = (Raised e, s)).
  { unfold signaling.offer, bind, lift_result, web.request_json.
    destruct (web.body request) as [v|];
      [ | eexists; split; [ | reflexivity ]; reflexivity ].
    destruct v as [ | b | n | q | t | items | members ];
      try (eexists; split; [ | reflexivity ]; reflexivity).
    simpl. destruct (dict_get members "sdp") as [x|] eqn:Hx;
      [ | eexists; split; [ | reflexivity ]; reflexivity ].
    destruct Hbad as [Hbad | Hbad]; [ done | ].
    rewrite Hbad. eexists; split; [ | reflexivity ]; reflexivity. }
  split; [ exact H | ].
  destruct H as (e & He & Hoffer).
  unfold web.handle_request, try_except. by rewrite Hoffer, He.
Qed.

Lemma offer_rejects_body_without_sdp_or_type_witness :
  (web.handle_request
     (camera_stream.offer sample.negotiation sample.request_without_type)
     (sample.server sample.world) =
   (Returned {| web.status := 500; web.content_type := "text/plain";
                web.payload := web.ErrorPage |}, sample.server sample.world))
  /\
  (web.handle_request
     (camera_stream_pose.offer sample.library sample.negotiation
        sample.request_without_sdp)
     (sample.server sample.world) =
   (Returned {| web.status := 500; web.content_type := "text/plain";
                web.payload := web.ErrorPage |}, sample.server sample.world)).
Proof.
  split.
  - apply (offer_rejects_body_without_sdp_or_type _
             camera_stream.new_VideoTransformTrack).
    right. reflexivity.
  - apply (offer_rejects_body_without_sdp_or_type _
             (camera_stream_pose.new_VideoTransformTrack sample.library)).
    left. reflexivity.
Defined.

(** C6, as the code behaves.  A request whose [sdp] member is there but
    malformed (here the number 123) gets past the constructor of the
    session description, so the connection is created and added to [pcs]
    before the [try] block; applying the description then raises, the
    handler answers with status 500 and the text of the exception, and the
    connection the request added is still in [pcs] when the request has
    been answered.  This is the defect of C1, met through a malformed
    field. *)
Theorem offer_malformed_sdp_leaves_the_connection_in_pcs :
  (let out :=
     web.handle_request
       (camera_stream.offer sample.negotiation_refusing_sdp
          sample.request_with_malformed_sdp)
       (sample.server sample.world) in
   fst out =
     Returned {| web.status := 500; web.content_type := "text/plain";
                 web.payload :=
                   web.Text "'int' object has no attribute 'splitlines'" |} /\
   signaling.pcs (snd out) = {[ 0 ]} /\
   length (signaling.conns (snd out)) = 1)
  /\
  (let out :=
     web.handle_request
       (camera_stream_pose.offer sample.library sample.negotiation_refusing_sdp
          sample.request_with_malformed_sdp)
       (sample.server sample.world) in
   fst out =
     Returned {| web.status := 500; web.content_type := "text/plain";
                 web.payload :=
                   web.Text "'int' object has no attribute 'splitlines'" |} /\
   signaling.pcs (snd out) = {[ 0 ]} /\
   length (signaling.conns (snd out)) = 1).
Proof.
  split; cbv zeta; (split; [ | split ]); vm_compute; reflexivity.
Qed.

(** C1, as the code behaves.  A request that fails inside the [try] block
    is answered with status 500 and the text of the exception, and the
    connection it created is still in [pcs] when the handler has returned:
    here with a camera that does not open ([camera_stream.py]) and with a
    remote description that aiortc refuses ([camera_stream_pose.py]). *)
Theorem offer_failure_leaves_the_connection_in_pcs :
  (let out := camera_stream.offer sample.negotiation sample.request
                (sample.server sample.no_camera) in
   fst out = Returned {| web.status := 500; web.content_type := "text/plain";
                         web.payload := web.Text "No se pudo abrir la cámara" |} /\
   signaling.pcs (snd out) = {[ 0 ]} /\
   length (signaling.conns (snd out)) = 1)
  /\
  (let out := camera_stream_pose.offer sample.library sample.failing_negotiation
                sample.request (sample.server sample.world) in
   fst out = Returned {| web.status := 500; web.content_type := "text/plain";
                         web.payload := web.Text "bad sdp" |} /\
   signaling.pcs (snd out) = {[ 0 ]} /\
   length (signaling.conns (snd out)) = 1).
Proof.
  split; cbv zeta.
  - unfold camera_stream.offer.
    erewrite offer_track_construction_fails
      with (v := JObject [("sdp", JString "v=0"); ("type", JString "offer")])
           (x := JString "v=0") (y := JString "offer") (d := sample.an_offer)
           (w' := cv2.count_open sample.no_camera);
      try reflexivity.
    simpl. split; [ done | split; [ | done ] ]. set_solver.
  - unfold camera_stream_pose.offer, signaling.offer.
    erewrite offer_prologue
      with (v := JObject [("sdp", JString "v=0"); ("type", JString "offer")])
           (x := JString "v=0") (y := JString "offer") (d := sample.an_offer);
      try reflexivity.
    simpl. split; [ done | split; [ | done ] ]. set_solver.
Qed.

(** ** Shutdown *)

(** A loop whose body only makes coroutine objects changes nothing. *)
Lemma for_each_expr_stmt {St A V : Type} (xs : list A) (value : A -> V) (s : St) :
  for_each xs (fun x => expr_stmt (value x)) s = (Returned tt, s).
Proof.
  induction xs as [|x xs IH]; [ done | ].
  cbn [for_each]. by erewrite bind_returned; [ | reflexivity ].
Qed.

Lemma main_finally_spec {Track : Type} (s : signaling.Server Track) :
  signaling.main_finally s = (Returned tt, s).
Proof.
  unfold signaling.main_finally. run. apply for_each_expr_stmt.
Qed.

(** The main program ends in the state in which serving ended; only a
    [KeyboardInterrupt] is swallowed. *)
Lemma main_spec {Track : Type} (new_track : M cv2.World Track)
    (events : list signaling.Event) (s : signaling.Server Track) :
  signaling.main new_track events s =
  (match fst (signaling.run_app new_track events s) with
   | Returned _ => Returned tt
   | Raised e =>
       match exc_class e with
       | OtherBaseException "KeyboardInterrupt" => Returned tt
       | _ => Raised e
       end
   end,
   snd (signaling.run_app new_track events s)).
Proof.
  unfold signaling.main.
  destruct (signaling.run_app new_track events s) as [r s1].
  by rewrite main_finally_spec.
Qed.

(** C3, as the code behaves.  The [finally] block calls [pc.close()] on
    every connection in [pcs] without awaiting the coroutine the call
    returns, so it leaves the whole process state as it found it: no
    connection changes its state.  With two live sessions when the
    interrupt arrives, both are still in [pcs] and neither is closed when
    the main program ends. *)
Theorem main_finally_closes_no_connection :
  (forall (Track : Type) (s : signaling.Server Track),
     signaling.main_finally s = (Returned tt, s))
  /\
  (let out :=
     camera_stream.main
       [signaling.PostOffer sample.negotiation sample.request;
        signaling.PostOffer sample.negotiation sample.request;
        signaling.Interrupt]
       (sample.server sample.world) in
   fst out = Returned tt /\
   signaling.pcs (snd out) = {[ 0; 1 ]} /\
   aiortc.connectionState <$> signaling.conns (snd out) = [aiortc.new; aiortc.new]).
Proof.
  split.
  - intros Track s. apply main_finally_spec.
  - cbv zeta. unfold camera_stream.main. rewrite main_spec. cbn [fst snd].
    split; [ vm_compute; reflexivity | split ].
    + vm_compute; reflexivity.
    + vm_compute; reflexivity.
Qed.

(** ** More on the signaling handler *)

Lemma addTrack_entered {Track : Type} (rtc : aiortc.Negotiation)
    (s : signaling.Server Track) (w' : cv2.World) (t : Track) :
  aiortc.addTrack_raises rtc = None ->
  signaling.addTrack rtc (length (signaling.conns s)) t
    (with_world w' (signaling.entered s)) =
  (Returned tt,
   {| signaling.pcs := {[ length (signaling.conns s) ]} ∪ signaling.pcs s;
      signaling.conns := signaling.conns s ++ [signaling.offered [t]];
      signaling.world := w' |}).
Proof.
  intros E. unfold signaling.addTrack. rewrite E. run.
  unfold signaling.update_conn, modify. simpl.
  rewrite lookup_fresh. rewrite insert_app_r_alt by done.
  by rewrite Nat.sub_diag.
Qed.

(** [offer] in full, for a request whose body decodes to a session
    description. *)
Lemma offer_spec {Track : Type} (new_track : M cv2.World Track)
    (rtc : aiortc.Negotiation) (request : web.Request)
    (s : signaling.Server Track) (v x y : json)
    (d : aiortc.RTCSessionDescription) :
  web.body request = Some v ->
  getitem v "sdp" = Returned x ->
  getitem v "type" = Returned y ->
  aiortc.new_RTCSessionDescription x y = Returned d ->
  signaling.offer new_track rtc request s =
  match new_track (signaling.world s) with
  | (Raised e, w') =>
      (signaling.answer_to e,
       {| signaling.pcs := {[ length (signaling.conns s) ]} ∪ signaling.pcs s;
          signaling.conns := signaling.conns s ++ [signaling.offered []];
          signaling.world := w' |})
  | (Returned t, w') =>
      (match aiortc.first_failure rtc with
       | Some e => signaling.answer_to e
       | None =>
           Returned
             {| web.status := 200; web.content_type := "application/json";
                web.payload :=
                  web.Dumps (JObject
                    [("sdp", aiortc.sdp (aiortc.localDescription rtc));
                     ("type", JString (aiortc.type (aiortc.localDescription rtc)))]) |}
       end,
       {| signaling.pcs := {[ length (signaling.conns s) ]} ∪ signaling.pcs s;
          signaling.conns :=
            signaling.conns s ++
            [signaling.offered
               (match aiortc.addTrack_raises rtc with
                | Some _ => []
                | None => [t]
                end)];
          signaling.world := w' |})
  end.
Proof.
  intros Hb Hx Hy Hd. unfold signaling.offer.
  erewrite offer_prologue by eassumption.
  unfold try_except, signaling.answer_to, aiortc.first_failure.
  destruct (new_track (signaling.world s)) as [[t|e] w'] eqn:Hnew.
  - erewrite bind_returned; [ | apply in_world_spec; exact Hnew ].
    destruct (aiortc.addTrack_raises rtc) as [e|] eqn:Ha.
    { erewrite bind_raised; cycle 1.
      { unfold signaling.addTrack. rewrite Ha.
        erewrite bind_raised; reflexivity. }
      by destruct (is_Exception (exc_class e)). }
    erewrite bind_returned; [ | by apply addTrack_entered ].
    destruct (aiortc.setRemoteDescription_raises rtc) as [e|].
    { erewrite bind_raised; [ | reflexivity ].
      by destruct (is_Exception (exc_class e)). }
    run.
    destruct (aiortc.createAnswer_result rtc) as [answer|e].
    2:{ erewrite bind_raised; [ | reflexivity ].
        by destruct (is_Exception (exc_class e)). }
    run.
    destruct (aiortc.setLocalDescription_raises rtc) as [e|].
    { erewrite bind_raised; [ | reflexivity ].
      by destruct (is_Exception (exc_class e)). }
    run. reflexivity.
  - erewrite bind_raised; [ | apply in_world_spec; exact Hnew ].
    by destruct (is_Exception (exc_class e)).
Qed.

(** X1.  When the track is constructed and no negotiation step raises,
    [offer] answers 200 with the JSON text of the connection's local
    description, and leaves the new connection in [pcs], in state [new],
    with the track as its only sender and the state handler registered;
    nothing else of the process state changes but the world the
    constructor ran in. *)
Theorem offer_answers_with_the_local_description :
  forall (Track : Type) (new_track : M cv2.World Track)
         (rtc : aiortc.Negotiation) (request : web.Request)
         (s : signaling.Server Track) (v x y : json)
         (d : aiortc.RTCSessionDescription) (t : Track) (w' : cv2.World),
    web.body request = Some v ->
    getitem v "sdp" = Returned x ->
    getitem v "type" = Returned y ->
    aiortc.new_RTCSessionDescription x y = Returned d ->
    new_track (signaling.world s) = (Returned t, w') ->
    aiortc.first_failure rtc = None ->
    signaling.offer new_track rtc request s =
    (Returned
       {| web.status := 200; web.content_type := "application/json";
          web.payload :=
            web.Dumps (JObject
              [("sdp", aiortc.sdp (aiortc.localDescription rtc));
               ("type", JString (aiortc.type (aiortc.localDescription rtc)))]) |},
     {| signaling.pcs := {[ length (signaling.conns s) ]} ∪ signaling.pcs s;
        signaling.conns :=
          signaling.conns s ++
          [ {| aiortc.connectionState := aiortc.new;
               aiortc.senders := [t];
               aiortc.listeners := ["connectionstatechange"] |} ];
        signaling.world := w' |}).
Proof.
  intros Track new_track rtc request s v x y d t w' Hb Hx Hy Hd Hnew Hok.
  rewrite (offer_spec new_track rtc request s v x y d Hb Hx Hy Hd).
  rewrite Hnew, Hok.
  unfold aiortc.first_failure in Hok.
  by destruct (aiortc.addTrack_raises rtc).
Qed.

Lemma offer_answers_with_the_local_description_witness :
  camera_stream.offer sample.negotiation sample.request
    (sample.server sample.world) =
  (Returned
     {| web.status := 200; web.content_type := "application/json";
        web.payload :=
          web.Dumps (JObject [("sdp", JString "v=0"); ("type", JString "answer")]) |},
   {| signaling.pcs := {[ 0 ]} ∪ ∅;
      signaling.conns :=
        [ {| aiortc.connectionState := aiortc.new;
             aiortc.senders := [camera_stream.self sample.track];
             aiortc.listeners := ["connectionstatechange"] |} ];
      signaling.world := cv2.count_open sample.world |}).
Proof.
  apply (offer_answers_with_the_local_description _
           camera_stream.new_VideoTransformTrack sample.negotiation
           sample.request (sample.server sample.world)
           (JObject [("sdp", JString "v=0"); ("type", JString "offer")])
           (JString "v=0") (JString "offer") sample.an_offer);
    vm_compute; reflexivity.
Defined.

(** X2.  When the track is constructed and a negotiation step raises, the
    handler answers for the first step that raises, in the order
    [addTrack], [setRemoteDescription], [createAnswer],
    [setLocalDescription]: status 500 with the text of that exception if
    it is an [Exception]; an exception that is not (a cancellation) is not
    caught and leaves the handler.  The same holds for an exception of the
    class call itself, whatever raised it. *)
Theorem offer_reports_the_first_failing_step :
  forall (Track : Type) (new_track : M cv2.World Track)
         (rtc : aiortc.Negotiation) (request : web.Request)
         (s : signaling.Server Track) (v x y : json)
         (d : aiortc.RTCSessionDescription) (e : PyExc),
    web.body request = Some v ->
    getitem v "sdp" = Returned x ->
    getitem v "type" = Returned y ->
    aiortc.new_RTCSessionDescription x y = Returned d ->
    (exists w', new_track (signaling.world s) = (Raised e, w')) \/
    (exists t w', new_track (signaling.world s) = (Returned t, w') /\
                  aiortc.first_failure rtc = Some e) ->
    fst (signaling.offer new_track rtc request s) =
      if is_Exception (exc_class e) then
        Returned {| web.status := 500; web.content_type := "text/plain";
                    web.payload := web.Text (str e) |}
      else Raised e.
Proof.
  intros Track new_track rtc request s v x y d e Hb Hx Hy Hd Hfail.
  rewrite (offer_spec new_track rtc request s v x y d Hb Hx Hy Hd).
  destruct Hfail as [(w' & Hnew) | (t & w' & Hnew & Hf)]; rewrite Hnew.
  - reflexivity.
  - by rewrite Hf.
Qed.

Lemma offer_reports_the_first_failing_step_witness :
  fst (camera_stream_pose.offer sample.library sample.failing_negotiation
         sample.request (sample.server sample.world)) =
  Returned {| web.status := 500; web.content_type := "text/plain";
              web.payload := web.Text "bad sdp" |}.
Proof.
  apply (offer_reports_the_first_failing_step _
           (camera_stream_pose.new_VideoTransformTrack sample.library)
           sample.failing_negotiation sample.request (sample.server sample.world)
           (JObject [("sdp", JString "v=0"); ("type", JString "offer")])
           (JString "v=0") (JString "offer") sample.an_offer
           (mkExc ValueError "bad sdp")); try (vm_compute; reflexivity).
  right. eexists _, _. split; vm_compute; reflexivity.
Defined.

(** X3.  Whatever happens in its [try] block, a request whose body decodes
    to a session description adds exactly one connection to [pcs] and
    creates exactly that one: the connections there were are untouched,
    none leaves [pcs], and the new one is in state [new] with the state
    handler registered. *)
Theorem offer_registers_exactly_one_connection :
  forall (Track : Type) (new_track : M cv2.World Track)
         (rtc : aiortc.Negotiation) (request : web.Request)
         (s : signaling.Server Track) (v x y : json)
         (d : aiortc.RTCSessionDescription),
    web.body request = Some v ->
    getitem v "sdp" = Returned x ->
    getitem v "type" = Returned y ->
    aiortc.new_RTCSessionDescription x y = Returned d ->
    let s' := snd (signaling.offer new_track rtc request s) in
    signaling.pcs s' = {[ length (signaling.conns s) ]} ∪ signaling.pcs s /\
    exists c,
      signaling.conns s' = signaling.conns s ++ [c] /\
      aiortc.connectionState c = aiortc.new /\
      aiortc.listeners c = ["connectionstatechange"].
Proof.
  intros Track new_track rtc request s v x y d Hb Hx Hy Hd. cbv zeta.
  rewrite (offer_spec new_track rtc request s v x y d Hb Hx Hy Hd).
  destruct (new_track (signaling.world s)) as [[t|e] w']; cbn [snd];
    (split; [ reflexivity | eexists; split; [ reflexivity | by split ] ]).
Qed.

Lemma offer_registers_exactly_one_connection_witness :
  let s' := snd (camera_stream.offer sample.failing_negotiation sample.request
                   (sample.server sample.no_camera)) in
  signaling.pcs s' = {[ 0 ]} ∪ ∅ /\
  exists c,
    signaling.conns s' = [] ++ [c] /\
    aiortc.connectionState c = aiortc.new /\
    aiortc.listeners c = ["connectionstatechange"].
Proof.
  apply (offer_registers_exactly_one_connection _
           camera_stream.new_VideoTransformTrack sample.failing_negotiation
           sample.request (sample.server sample.no_camera)
           (JObject [("sdp", JString "v=0"); ("type", JString "offer")])
           (JString "v=0") (JString "offer") sample.an_offer);
    vm_compute; reflexivity.
Defined.

(** ** Connection state changes *)

(** X4.  When aiortc announces a state for a connection on which [offer]
    registered its handler: for [failed], the handler closes the
    connection, which also removes its listeners, and removes it from
    [pcs]; for every other state, [closed] and [disconnected] included,
    the connection only takes the state and [pcs] stays as it is.  No
    other connection is touched. *)
Theorem only_a_failed_connection_is_closed_and_dropped :
  forall (Track : Type) (new_track : M cv2.World Track)
         (s : signaling.Server Track) (pc : nat)
         (c : aiortc.RTCPeerConnection Track) (st : aiortc.ConnectionState),
    signaling.conns s !! pc = Some c ->
    "connectionstatechange" ∈ aiortc.listeners c ->
    signaling.deliver new_track (signaling.StateChange pc st) s =
    (Returned [],
     {| signaling.pcs :=
          match st with
          | aiortc.failed => signaling.pcs s ∖ {[ pc ]}
          | _ => signaling.pcs s
          end;
        signaling.conns :=
          <[pc := {| aiortc.connectionState :=
                       match st with
                       | aiortc.failed => aiortc.closed
                       | _ => st
                       end;
                     aiortc.senders := aiortc.senders c;
                     aiortc.listeners :=
                       match st with
                       | aiortc.failed => []
                       | _ => aiortc.listeners c
                       end |}]>
            (signaling.conns s);
        signaling.world := signaling.world s |}).
Proof.
  intros Track new_track s pc c st Hc Hl.
  assert (Hlt : pc < length (signaling.conns s)) by (by eapply lookup_lt_Some).
  unfold signaling.deliver.
  erewrite bind_returned; cycle 1.
  { unfold signaling.set_state, signaling.update_conn, modify.
    rewrite Hc. reflexivity. }
  run. cbn [signaling.conns].
  rewrite list_lookup_insert_eq by done. cbn [aiortc.listeners].
  rewrite bool_decide_eq_true_2 by done.
  unfold signaling.on_connectionstatechange.
  destruct st.
  all: try (erewrite bind_returned; cycle 1;
            [ run; cbn [signaling.conns];
              rewrite list_lookup_insert_eq by done; reflexivity
            | reflexivity ]).
  erewrite bind_returned; cycle 1.
  { run. cbn [signaling.conns]. rewrite list_lookup_insert_eq by done.
    cbn [fmap option_fmap option_map aiortc.connectionState].
    erewrite bind_returned; cycle 1.
    { unfold await, signaling.pc_close.
      erewrite bind_returned; cycle 1.
      { unfold signaling.set_state, signaling.update_conn, modify.
        cbn [signaling.conns].
        rewrite list_lookup_insert_eq by done. reflexivity. }
      unfold signaling.remove_all_listeners, signaling.update_conn, modify.
      cbn [signaling.conns].
      rewrite list_lookup_insert_eq by (by rewrite length_insert).
      reflexivity. }
    reflexivity. }
  unfold ret. cbn. by rewrite !list_insert_insert_eq.
Qed.

Lemma only_a_failed_connection_is_closed_and_dropped_witness :
  let s := snd (camera_stream.offer sample.negotiation sample.request
                  (sample.server sample.world)) in
  let s' := snd (signaling.deliver camera_stream.new_VideoTransformTrack
                   (signaling.StateChange 0 aiortc.failed) s) in
  signaling.pcs s' = ({[ 0 ]} ∪ ∅) ∖ {[ 0 ]} /\
  aiortc.connectionState <$> signaling.conns s' = [aiortc.closed] /\
  aiortc.listeners <$> signaling.conns s' = [[]].
Proof.
  cbv zeta.
  rewrite (only_a_failed_connection_is_closed_and_dropped _
             camera_stream.new_VideoTransformTrack _ 0
             (signaling.offered [camera_stream.self sample.track]) aiortc.failed).
  - split; [ | split ]; vm_compute; reflexivity.
  - vm_compute; reflexivity.
  - vm_compute. apply list_elem_of_here.
Defined.

(** ** More on the tracks *)

(** X5.  [recv] of [camera_stream.py] on an open capture makes exactly one
    device read per invocation and delivers exactly the frames read, in
    the order read, none dropped or repeated: each as an [rgb24] frame
    whose pixels are the frame's with the first and third channel
    swapped.  On a capture that is not open it delivers nothing and does
    not touch the device. *)
Theorem recv_delivers_the_frames_read_in_order :
  forall (n : nat) (c : cv2.VideoCapture) (tb : QArith_base.Q) (p : Z)
         (w : cv2.World),
    let run_ :=
      invocations n camera_stream.recv
        {| camera_stream.self := camera_stream.assigned c tb p;
           camera_stream.world := w |} in
    (cv2.opened c = true ->
     av.planes <$> emitted (fst run_) = cv2.bgr2rgb <$> cv2.frames_read w n /\
     Forall (fun f => av.format f = "rgb24") (emitted (fst run_)) /\
     cv2.read_calls (camera_stream.world (snd run_)) = cv2.read_calls w + n) /\
    (cv2.opened c = false ->
     emitted (fst run_) = [] /\
     cv2.read_calls (camera_stream.world (snd run_)) = cv2.read_calls w).
Proof.
  induction n as [|n IH]; intros c tb p w; cbn [invocations].
  - cbv zeta. cbn. split; intros _; [ | done ].
    split; [ done | split; [ constructor | lia ] ].
  - rewrite plain_recv_step. cbv zeta.
    destruct (cv2.opened c) eqn:Hc;
      [ destruct (cv2.read_result w (cv2.read_calls w)) as [a|] eqn:Ha | ].
    + pose proof (IH c tb (p + 1)%Z
        (cv2.set_arrays (cv2.arrays w ++ [a; cv2.bgr2rgb a]) (cv2.count_read w)))
        as [IH1 _].
      rewrite (frames_read_step w
        (cv2.set_arrays (cv2.arrays w ++ [a; cv2.bgr2rgb a]) (cv2.count_read w)) n)
        by done.
      rewrite Ha. cbv zeta in IH1.
      destruct (invocations n camera_stream.recv _) as [rs o].
      cbn [fst snd] in *. destruct (IH1 Hc) as (Hp & Hf & Hr).
      change (emitted (Returned (Some ?f) :: rs)) with (f :: emitted rs).
      split; [ intros _ | done ]. repeat split.
      * cbn [fmap list_fmap]. f_equal. exact Hp.
      * by constructor.
      * rewrite Hr. simpl. lia.
    + pose proof (IH c tb p (cv2.count_read w)) as [IH1 _].
      rewrite (frames_read_step w (cv2.count_read w) n) by done.
      rewrite Ha. cbv zeta in IH1.
      destruct (invocations n camera_stream.recv _) as [rs o].
      cbn [fst snd] in *. destruct (IH1 Hc) as (Hp & Hf & Hr).
      change (emitted (Returned None :: rs)) with (emitted rs).
      split; [ intros _ | done ]. repeat split; try done.
      rewrite Hr. simpl. lia.
    + pose proof (IH c tb p w) as [_ IH2]. cbv zeta in IH2.
      destruct (invocations n camera_stream.recv _) as [rs o].
      cbn [fst snd] in *.
      change (emitted (Returned None :: rs)) with (emitted rs).
      split; [ done | intros _ ]. by apply IH2.
Qed.

Lemma recv_delivers_the_frames_read_in_order_witness :
  let run_ := invocations 5 camera_stream.recv sample.track in
  av.planes <$> emitted (fst run_) =
    cv2.bgr2rgb <$> cv2.frames_read (cv2.count_open sample.world) 5 /\
  Forall (fun f => av.format f = "rgb24") (emitted (fst run_)) /\
  cv2.read_calls (camera_stream.world (snd run_)) = 0 + 5.
Proof.
  exact (proj1 (recv_delivers_the_frames_read_in_order 5 cv2.configured
                  (QArith_base.Qmake 1 30) 0 (cv2.count_open sample.world))
           eq_refl).
Defined.

(** X6.  When the detectors find nothing in the frame read (no pose, and
    no hand or an empty list of hands), [recv] of [camera_stream_pose.py]
    returns what [recv] of [camera_stream.py] returns on the same capture,
    counter, time base and world: the same frame, or [None] for the same
    failed read. *)
Theorem pose_recv_without_detections_is_plain_recv :
  forall (PoseGraph HandsGraph : Type)
         (mp : mediapipe.Library PoseGraph HandsGraph)
         (c : cv2.VideoCapture)
         (p_ : mediapipe.Solution PoseGraph) (h_ : mediapipe.Solution HandsGraph)
         (tb : QArith_base.Q) (p : Z) (w : cv2.World),
    (forall a,
       cv2.read_result w (cv2.read_calls w) = Some a ->
       fst (mediapipe.Pose_process mp (mediapipe.graph p_) (cv2.bgr2rgb a)) = None /\
       (fst (mediapipe.Hands_process mp (mediapipe.graph h_) (cv2.bgr2rgb a)) = None \/
        fst (mediapipe.Hands_process mp (mediapipe.graph h_) (cv2.bgr2rgb a)) = Some [])) ->
    fst (camera_stream_pose.recv mp
           {| camera_stream_pose.self := camera_stream_pose.assigned c p_ h_ tb p;
              camera_stream_pose.world := w |}) =
    fst (camera_stream.recv
           {| camera_stream.self := camera_stream.assigned c tb p;
              camera_stream.world := w |}).
Proof.
  intros PoseGraph HandsGraph mp c p_ h_ tb p w Hnone.
  rewrite pose_recv_step, plain_recv_step.
  destruct (cv2.opened c); [ | done ].
  destruct (cv2.read_result w (cv2.read_calls w)) as [a|]; [ | done ].
  destruct (Hnone a eq_refl) as (Hp & Hh).
  cbn [fst]. unfold camera_stream_pose.annotated. rewrite Hp.
  by destruct Hh as [-> | ->].
Qed.

Lemma pose_recv_without_detections_is_plain_recv_witness :
  fst (camera_stream_pose.recv sample.library sample.pose_track) =
  fst (camera_stream.recv sample.track).
Proof.
  apply (pose_recv_without_detections_is_plain_recv nat nat sample.library
           cv2.configured (mediapipe.fresh_solution 0) (mediapipe.fresh_solution 0)
           (QArith_base.Qmake 1 30) 0 (cv2.count_open sample.world)).
  intros a Ha. vm_compute in Ha. injection Ha as <-.
  split; [ | left ]; vm_compute; reflexivity.
Defined.

(** X7.  What [process_frame] does to the array store, for a frame that
    holds [a]: it paints the frame object in place, the pose overlay
    first and the overlays of the hands on top of it in the order the
    detector lists them; it adds one array, the RGB copy of [a], which is
    still unpainted afterwards; every other array, and the device, are as
    before. *)
Theorem process_frame_paints_pose_then_hands :
  forall (PoseGraph HandsGraph : Type)
         (mp : mediapipe.Library PoseGraph HandsGraph)
         (c : cv2.VideoCapture)
         (p_ : mediapipe.Solution PoseGraph) (h_ : mediapipe.Solution HandsGraph)
         (tb : QArith_base.Q) (p : Z) (w : cv2.World)
         (r : cv2.ref) (a : cv2.ndarray),
    cv2.arrays w !! r = Some a ->
    let found_pose :=
      fst (mediapipe.Pose_process mp (mediapipe.graph p_) (cv2.bgr2rgb a)) in
    let found_hands :=
      fst (mediapipe.Hands_process mp (mediapipe.graph h_) (cv2.bgr2rgb a)) in
    let w' :=
      camera_stream_pose.world
        (snd (camera_stream_pose.process_frame mp (Some r)
                {| camera_stream_pose.self := camera_stream_pose.assigned c p_ h_ tb p;
                   camera_stream_pose.world := w |})) in
    cv2.arrays w' =
      <[r := fold_left (camera_stream_pose.hand_overlay mp)
               (default [] found_hands)
               (match found_pose with
                | Some landmarks => camera_stream_pose.pose_overlay mp a landmarks
                | None => a
                end)]> (cv2.arrays w) ++ [cv2.bgr2rgb a] /\
    cv2.read_calls w' = cv2.read_calls w /\
    cv2.open_calls w' = cv2.open_calls w.
Proof.
  intros PoseGraph HandsGraph mp c p_ h_ tb p w r a Hr. cbv zeta.
  rewrite (process_frame_spec mp c p_ h_ tb p w r a Hr).
  cbn [snd camera_stream_pose.world]. unfold camera_stream_pose.annotated.
  split; [ | done ]. simpl.
  rewrite insert_app_l; [ done | by eapply lookup_lt_Some ].
Qed.

Lemma process_frame_paints_pose_then_hands_witness :
  let w' :=
    camera_stream_pose.world
      (snd (camera_stream_pose.process_frame sample.library (Some 0)
              {| camera_stream_pose.self := camera_stream_pose.self sample.pose_track;
                 camera_stream_pose.world :=
                   cv2.set_arrays [sample.hands_image] sample.world |})) in
  cv2.arrays w' =
    [ [[(0, 0, 255)%Z]; [(0, 0, 255)%Z]; [(255, 0, 0); (40, 50, 60)]%Z];
      [[(0, 0, 255); (60, 50, 40)]%Z] ].
Proof.
  cbv zeta. etrans.
  - exact (proj1 (process_frame_paints_pose_then_hands nat nat sample.library
             cv2.configured (mediapipe.fresh_solution 0)
             (mediapipe.fresh_solution 0) (QArith_base.Qmake 1 30) 0
             (cv2.set_arrays [sample.hands_image] sample.world) 0
             sample.hands_image eq_refl)).
  - vm_compute. reflexivity.
Defined.

(** One more invocation after [n]: the run as a whole. *)
Lemma pose_recvs_processed {PoseGraph HandsGraph : Type}
    (mp : mediapipe.Library PoseGraph HandsGraph) (n : nat) :
  forall c p_ h_ tb p w,
    cv2.opened c = true ->
    exists p1 h1 p',
      camera_stream_pose.self
        (snd (invocations n (camera_stream_pose.recv mp)
                {| camera_stream_pose.self := camera_stream_pose.assigned c p_ h_ tb p;
                   camera_stream_pose.world := w |})) =
        camera_stream_pose.assigned c p1 h1 tb p' /\
      mediapipe.processed p1 =
        reverse (cv2.bgr2rgb <$> cv2.frames_read w n) ++ mediapipe.processed p_ /\
      mediapipe.processed h1 =
        reverse (cv2.bgr2rgb <$> cv2.frames_read w n) ++ mediapipe.processed h_.
Proof.
  induction n as [|n IH]; intros c p_ h_ tb p w Hc; cbn [invocations].
  - by exists p_, h_, p.
  - rewrite pose_recv_step, Hc.
    destruct (cv2.read_result w (cv2.read_calls w)) as [a|] eqn:Ha.
    + match goal with
      | |- context [invocations n _ {| camera_stream_pose.self :=
               camera_stream_pose.assigned _ ?p1 ?h1 _ _;
               camera_stream_pose.world := ?w1 |}] =>
          destruct (IH c p1 h1 tb (p + 1)%Z w1 Hc) as (p2 & h2 & p' & Hs & Hp & Hh);
          rewrite (frames_read_step w w1 n) by done
      end.
      rewrite Ha.
      destruct (invocations n (camera_stream_pose.recv mp) _) as [rs o].
      cbn [fst snd] in *. exists p2, h2, p'. split; [ done | ].
      rewrite Hp, Hh. cbn [fmap list_fmap mediapipe.after_process mediapipe.processed].
      rewrite reverse_cons, <- !app_assoc. done.
    + destruct (IH c p_ h_ tb p (cv2.count_read w) Hc) as (p2 & h2 & p' & Hs & Hp & Hh).
      rewrite (frames_read_step w (cv2.count_read w) n) by done.
      rewrite Ha.
      destruct (invocations n (camera_stream_pose.recv mp) _) as [rs o].
      cbn [fst snd] in *. by exists p2, h2, p'.
Qed.

(** X8.  Over any number of [recv] invocations of [camera_stream_pose.py]
    on an open capture, each detector is called once for every frame read
    and never for a failed read, and what it is given is the RGB copy of
    that frame as the camera delivered it, in the order read: no overlay
    painted for an earlier frame or by the other pass reaches a detector. *)
Theorem detectors_process_each_frame_read_once :
  forall (PoseGraph HandsGraph : Type)
         (mp : mediapipe.Library PoseGraph HandsGraph)
         (w : cv2.World) (o : camera_stream_pose.Obj) (n : nat),
    camera_stream_pose.__init__ mp
      {| camera_stream_pose.self := camera_stream_pose.blank;
         camera_stream_pose.world := w |} = (Returned tt, o) ->
    let t :=
      camera_stream_pose.self (snd (invocations n (camera_stream_pose.recv mp) o)) in
    mediapipe.processed <$> camera_stream_pose.pose t =
      Some (reverse (cv2.bgr2rgb <$> cv2.frames_read (camera_stream_pose.world o) n)) /\
    mediapipe.processed <$> camera_stream_pose.hands t =
      Some (reverse (cv2.bgr2rgb <$> cv2.frames_read (camera_stream_pose.world o) n)).
Proof.
  intros PoseGraph HandsGraph mp w o n Hinit. rewrite pose_init_spec in Hinit.
  destruct (cv2.open_result w 0 (cv2.open_calls w)); [ | done ].
  destruct (mediapipe.new_Pose mp _ _) as [gp|]; [ | done ].
  destruct (mediapipe.new_Hands mp _ _) as [gh|]; [ | done ].
  injection Hinit as <-. cbv zeta.
  destruct (pose_recvs_processed mp n cv2.configured
              (mediapipe.fresh_solution gp) (mediapipe.fresh_solution gh)
              (QArith_base.Qmake 1 30) 0 (cv2.count_open w) eq_refl)
    as (p1 & h1 & p' & Hs & Hp & Hh).
  rewrite Hs. cbn. rewrite Hp, Hh. cbn. by rewrite app_nil_r.
Qed.

Lemma detectors_process_each_frame_read_once_witness :
  let t :=
    camera_stream_pose.self
      (snd (invocations 5 (camera_stream_pose.recv sample.library)
              sample.pose_track)) in
  mediapipe.processed <$> camera_stream_pose.pose t =
    Some (reverse (cv2.bgr2rgb <$>
            cv2.frames_read (camera_stream_pose.world sample.pose_track) 5)) /\
  mediapipe.processed <$> camera_stream_pose.hands t =
    Some (reverse (cv2.bgr2rgb <$>
            cv2.frames_read (camera_stream_pose.world sample.pose_track) 5)).
Proof.
  apply (detectors_process_each_frame_read_once nat nat sample.library
           sample.world sample.pose_track 5).
  vm_compute; reflexivity.
Defined.

(** X9.  [__init__] of [camera_stream_pose.py] does not undo what it did
    when a detector cannot be created: if [Pose(...)] raises, [__init__]
    raises that exception and leaves the capture open and unreleased in
    [self.cap], with no detector assigned; if [Hands(...)] raises, the
    pose detector already created is left assigned and unclosed as well.
    Neither [time_base] nor [pts] is assigned in these cases. *)
Theorem init_leaves_the_camera_open_when_a_detector_fails :
  forall (PoseGraph HandsGraph : Type)
         (mp : mediapipe.Library PoseGraph HandsGraph)
         (w : cv2.World) (e : PyExc),
    cv2.open_result w 0 (cv2.open_calls w) = true ->
    let out :=
      camera_stream_pose.__init__ mp
        {| camera_stream_pose.self := camera_stream_pose.blank;
           camera_stream_pose.world := w |} in
    let t := camera_stream_pose.self (snd out) in
    (mediapipe.new_Pose mp (QArith_base.Qmake 1 2) (QArith_base.Qmake 1 2) = Raised e ->
     fst out = Raised e /\
     camera_stream_pose.cap t = Some cv2.configured /\
     camera_stream_pose.pose t = None /\
     camera_stream_pose.hands t = None /\
     camera_stream_pose.time_base t = None /\
     camera_stream_pose.pts t = None) /\
    (forall gp,
       mediapipe.new_Pose mp (QArith_base.Qmake 1 2) (QArith_base.Qmake 1 2) = Returned gp ->
       mediapipe.new_Hands mp (QArith_base.Qmake 1 2) (QArith_base.Qmake 1 2) = Raised e ->
       fst out = Raised e /\
       camera_stream_pose.cap t = Some cv2.configured /\
       camera_stream_pose.pose t = Some (mediapipe.fresh_solution gp) /\
       camera_stream_pose.hands t = None /\
       camera_stream_pose.time_base t = None /\
       camera_stream_pose.pts t = None).
Proof.
  intros PoseGraph HandsGraph mp w e Hopen. cbv zeta.
  rewrite pose_init_spec, Hopen. split.
  - by intros ->.
  - by intros gp -> ->.
Qed.

Lemma init_leaves_the_camera_open_when_a_detector_fails_witness :
  (let out :=
     camera_stream_pose.__init__ sample.library_without_pose
       {| camera_stream_pose.self := camera_stream_pose.blank;
          camera_stream_pose.world := sample.world |} in
   let t := camera_stream_pose.self (snd out) in
   fst out = Raised (mkExc RuntimeError "no model") /\
   camera_stream_pose.cap t = Some cv2.configured /\
   camera_stream_pose.pose t = None /\
   camera_stream_pose.hands t = None /\
   camera_stream_pose.time_base t = None /\
   camera_stream_pose.pts t = None)
  /\
  (let out :=
     camera_stream_pose.__init__ sample.library_without_hands
       {| camera_stream_pose.self := camera_stream_pose.blank;
          camera_stream_pose.world := sample.world |} in
   let t := camera_stream_pose.self (snd out) in
   fst out = Raised (mkExc RuntimeError "no model") /\
   camera_stream_pose.cap t = Some cv2.configured /\
   camera_stream_pose.pose t = Some (mediapipe.fresh_solution 0) /\
   camera_stream_pose.hands t = None /\
   camera_stream_pose.time_base t = None /\
   camera_stream_pose.pts t = None).
Proof.
  split.
  - apply (proj1 (init_leaves_the_camera_open_when_a_detector_fails nat nat
                    sample.library_without_pose sample.world
                    (mkExc RuntimeError "no model") eq_refl)).
    reflexivity.
  - apply (proj2 (init_leaves_the_camera_open_when_a_detector_fails nat nat
                    sample.library_without_hands sample.world
                    (mkExc RuntimeError "no model") eq_refl) 0);
      reflexivity.
Defined.

(** X10.  A request whose [sdp] and [type] members are there but are
    refused by [RTCSessionDescription(...)] makes [offer] raise that
    exception before any connection exists: the process state, [pcs]
    included, is as before, and no camera was opened. *)
Theorem offer_creates_no_connection_for_a_refused_description :
  forall (Track : Type) (new_track : M cv2.World Track)
         (rtc : aiortc.Negotiation) (request : web.Request)
         (s : signaling.Server Track) (v x y : json) (e : PyExc),
    web.body request = Some v ->
    getitem v "sdp" = Returned x ->
    getitem v "type" = Returned y ->
    aiortc.new_RTCSessionDescription x y = Raised e ->
    signaling.offer new_track rtc request s = (Raised e, s).
Proof.
  intros Track new_track rtc request s v x y e Hb Hx Hy Hd.
  unfold signaling.offer.
  erewrite bind_returned; cycle 1.
  { unfold lift_result, web.request_json. rewrite Hb. reflexivity. }
  erewrite bind_returned; [ | unfold lift_result; rewrite Hx; reflexivity ].
  erewrite bind_returned; [ | unfold lift_result; rewrite Hy; reflexivity ].
  erewrite bind_raised; [ | unfold lift_result; rewrite Hd; reflexivity ].
  reflexivity.
Qed.

Lemma offer_creates_no_connection_for_a_refused_description_witness :
  exists e,
    camera_stream.offer sample.negotiation sample.request_of_unknown_type
      (sample.server sample.world) = (Raised e, sample.server sample.world).
Proof.
  eexists.
  apply (offer_creates_no_connection_for_a_refused_description _
           camera_stream.new_VideoTransformTrack sample.negotiation
           sample.request_of_unknown_type (sample.server sample.world)
           (JObject [("sdp", JString "v=0"); ("type", JString "bogus")])
           (JString "v=0") (JString "bogus"));
    vm_compute; reflexivity.
Defined.

(** X11.  [__del__] of [camera_stream.py] is not idempotent: it never
    clears [self.cap], so a second run on the same object calls
    [release()] on the capture once more. *)
Theorem a_second_del_releases_again :
  forall o : camera_stream.Obj,
    let o2 := snd (camera_stream.__del__ (snd (camera_stream.__del__ o))) in
    fst (camera_stream.__del__ (snd (camera_stream.__del__ o))) = Returned tt /\
    cv2.release_calls <$> camera_stream.cap (camera_stream.self o2) =
      (fun c => S (S (cv2.release_calls c))) <$>
        camera_stream.cap (camera_stream.self o).
Proof.
  intros o. cbv zeta. rewrite !plain_del_spec. cbn. split; [ done | ].
  by destruct (camera_stream.cap (camera_stream.self o)).
Qed.

(** X12.  Every request whose body decodes to a session description makes
    exactly one attempt to open camera 0, whether or not a session created
    earlier holds the camera, and whatever the negotiation does
    afterwards; the handler reads no frame and creates no array. *)
Theorem offer_opens_the_camera_once :
  (forall (rtc : aiortc.Negotiation) (request : web.Request)
          (s : camera_stream.Server) (v x y : json)
          (d : aiortc.RTCSessionDescription),
     web.body request = Some v ->
     getitem v "sdp" = Returned x ->
     getitem v "type" = Returned y ->
     aiortc.new_RTCSessionDescription x y = Returned d ->
     signaling.world (snd (camera_stream.offer rtc request s)) =
       cv2.count_open (signaling.world s))
  /\
  (forall (PoseGraph HandsGraph : Type)
          (mp : mediapipe.Library PoseGraph HandsGraph)
          (rtc : aiortc.Negotiation) (request : web.Request)
          (s : camera_stream_pose.Server) (v x y : json)
          (d : aiortc.RTCSessionDescription),
     web.body request = Some v ->
     getitem v "sdp" = Returned x ->
     getitem v "type" = Returned y ->
     aiortc.new_RTCSessionDescription x y = Returned d ->
     signaling.world (snd (camera_stream_pose.offer mp rtc request s)) =
       cv2.count_open (signaling.world s)).
Proof.
  split.
  - intros rtc request s v x y d Hb Hx Hy Hd. unfold camera_stream.offer.
    rewrite (offer_spec _ rtc request s v x y d Hb Hx Hy Hd).
    rewrite plain_new_track_spec.
    by destruct (cv2.open_result _ _ _).
  - intros PoseGraph HandsGraph mp rtc request s v x y d Hb Hx Hy Hd.
    unfold camera_stream_pose.offer.
    rewrite (offer_spec _ rtc request s v x y d Hb Hx Hy Hd).
    unfold camera_stream_pose.new_VideoTransformTrack. rewrite pose_init_spec.
    destruct (cv2.open_result _ _ _); [ | done ].
    destruct (mediapipe.new_Pose mp _ _); [ | done ].
    by destruct (mediapipe.new_Hands mp _ _).
Qed.

Lemma offer_opens_the_camera_once_witness :
  let s1 := snd (camera_stream.offer sample.negotiation sample.request
                   (sample.server sample.world)) in
  let s2 := snd (camera_stream.offer sample.negotiation sample.request s1) in
  cv2.open_calls (signaling.world s2) = 2.
Proof.
  cbv zeta.
  rewrite (proj1 offer_opens_the_camera_once sample.negotiation sample.request _
             (JObject [("sdp", JString "v=0"); ("type", JString "offer")])
             (JString "v=0") (JString "offer") sample.an_offer)
    by (vm_compute; reflexivity).
  vm_compute. reflexivity.
Defined.
